(** * keystone: Go HTTP middleware authenticating requests against Keystone

    A shallow embedding of [middleware.go].  The request header is Go's
    [http.Header] (a map from canonical keys to value lists), the optional
    pointers of the [token] struct are options, a nil dereference is an
    explicit [Panic] result, and the collaborators of the handler (the HTTP
    client, the JSON decoder, the wall clock, the token cache and the next
    handler of the chain) are an environment and a threaded world state. *)

From Stdlib Require Import ZArith Ascii String List.
From stdpp Require Import base option gmap strings list fin_maps.

Local Open Scope string_scope.
Local Open Scope list_scope.
Local Open Scope Z_scope.

(** ** net/textproto and net/http: header keys and the header map *)

Module Textproto.

(** [validHeaderFieldByte]: the RFC 7230 token characters. *)
Definition validHeaderFieldByte (c : ascii) : bool :=
  let n := nat_of_ascii c in
  ((48 <=? n) && (n <=? 57))%nat || ((65 <=? n) && (n <=? 90))%nat
  || ((97 <=? n) && (n <=? 122))%nat
  || bool_decide (c ∈ ["!"; "#"; "$"; "%"; "&"; "'"; "*"; "+"; "-"; ".";
                       "^"; "_"; "`"; "|"; "~"]%char).

Definition isLower (c : ascii) : bool :=
  ((97 <=? nat_of_ascii c) && (nat_of_ascii c <=? 122))%nat.
Definition isUpper (c : ascii) : bool :=
  ((65 <=? nat_of_ascii c) && (nat_of_ascii c <=? 90))%nat.
Definition toUpper (c : ascii) : ascii := ascii_of_nat (nat_of_ascii c - 32).
Definition toLower (c : ascii) : ascii := ascii_of_nat (nat_of_ascii c + 32).

Fixpoint allValid (s : string) : bool :=
  match s with
  | EmptyString => true
  | String c s' => validHeaderFieldByte c && allValid s'
  end.

(** The rewriting loop of [canonicalMIMEHeaderKey]: the first letter and
    every letter after a hyphen upper case, the others lower case. *)
Fixpoint canonLoop (upper : bool) (s : string) : string :=
  match s with
  | EmptyString => EmptyString
  | String c s' =>
      let c' := if upper && isLower c then toUpper c
                else if negb upper && isUpper c then toLower c
                else c in
      String c' (canonLoop (bool_decide (c' = "-"%char)) s')
  end.

(** [CanonicalMIMEHeaderKey]: a key holding a byte that is not a token
    character is returned unchanged. *)
Definition CanonicalMIMEHeaderKey (s : string) : string :=
  if allValid s then canonLoop true s else s.

End Textproto.

Module Header.

(** [type Header map[string][]string] *)
Abbreviation t := (gmap string (list string)).

Definition Get (h : t) (key : string) : string :=
  match h !! Textproto.CanonicalMIMEHeaderKey key with
  | Some (v :: _) => v
  | _ => ""
  end.

Definition Set_ (h : t) (key value : string) : t :=
  <[Textproto.CanonicalMIMEHeaderKey key := [value]]> h.

Definition Del (h : t) (key : string) : t :=
  delete (Textproto.CanonicalMIMEHeaderKey key) h.

End Header.

(** ** filterIncomingHeaders *)

(** The header names the function deletes, in the order of its [Del] calls. *)
Definition filteredNames : list string :=
  [ "X-Identity-Status"; "X-Service-Identity-Status";
    "X-Domain-Id"; "X-Service-Domain-Id";
    "X-Domain-Name"; "X-Service-Domain-Name";
    "X-Project-Id"; "X-Service-Project-Id";
    "X-Project-Name"; "X-Service-Project-Name";
    "X-Project-Domain-Id"; "X-Service-Project-Domain-Id";
    "X-Project-Domain-Name"; "X-Service-Project-Domain-Name";
    "X-User-Id"; "X-Service-User-Id";
    "X-User-Name"; "X-Service-User-Name";
    "X-User-Domain-Id"; "X-Service-User-Domain-Id";
    "X-User-Domain-Name"; "X-Service-User-Domain-Name";
    "X-Roles"; "X-Service-Roles";
    "X-Servie-Catalog";
    "X-Tenant-Id"; "X-Tenant"; "X-User"; "X-Role" ].

Definition filterIncomingHeaders (h : Header.t) : Header.t :=
  foldl Header.Del h filteredNames.

(** ** package time *)

Module Time.

(** A [time.Time] instant as nanoseconds since the Unix epoch; a
    [time.Duration] is an int64 count of nanoseconds. *)
Abbreviation t := Z.
Abbreviation Duration := Z.

Definition Second : Duration := 1000000000.
Definition Minute : Duration := 60 * Second.
Definition minDuration : Duration := - 2 ^ 63.
Definition maxDuration : Duration := 2 ^ 63 - 1.

(** [t.Unix()]: whole seconds since the epoch, rounded down. *)
Definition Unix (x : t) : Z := x / Second.

(** [t.Sub(u)]: the difference, saturated to the range of a Duration. *)
Definition Sub (x u : t) : Duration :=
  let d := x - u in
  if d <? minDuration then minDuration
  else if maxDuration <? d then maxDuration
  else d.

End Time.

(** ** The token structs *)

Record domain := {
  domain_ID : string;
  domain_Name : string;
  domain_Enabled : bool }.

Record project := {
  project_ID : string;
  project_DomainID : string;
  project_Name : string;
  project_Enabled : bool;
  project_Domain : option domain }.

Record userDomain := {
  userDomain_ID : string;
  userDomain_Name : string }.

Record user := {
  user_ID : string;
  user_Name : string;
  user_Email : string;
  user_Enabled : bool;
  user_DomainID : string;
  user_Domain : userDomain }.

Record role := {
  role_ID : string;
  role_Name : string }.

Record token := {
  token_ExpiresAt : Time.t;
  token_IssuedAt : Time.t;
  token_User : user;
  token_Project : option project;
  token_Domain : option domain;
  token_Roles : option (list role) }.

Record errorBody := {
  error_Code : Z;
  error_Message : string;
  error_Title : string }.

Record authResponse := {
  authResponse_Error : option errorBody;
  authResponse_Token : option token }.

(** [func (t token) Valid() bool], given the reading of [time.Now()]. *)
Definition Valid (t : token) (now : Time.t) : bool :=
  (Time.Unix (token_IssuedAt t) <=? Time.Unix now)
  && (Time.Unix now <? Time.Unix (token_ExpiresAt t)).

(** ** Headers *)

(** A call either returns or panics (a nil pointer dereference). *)
Inductive reply (A : Type) : Type :=
| Return (a : A)
| Panic (msg : string).
Arguments Return {A} a.
Arguments Panic {A} msg.

Definition nilDereference : string :=
  "invalid memory address or nil pointer dereference".

(** [strings.Join] *)
Fixpoint Join (elems : list string) (sep : string) : string :=
  match elems with
  | [] => ""
  | [e] => e
  | e :: rest => e +:+ sep +:+ Join rest sep
  end.

(** The loop [for _, role := range *t.Roles] appending each name. *)
Definition roleNames (roles : list role) : list string :=
  foldl (fun names r => names ++ [role_Name r]) [] roles.

Definition Headers (t : token) : reply (gmap string string) :=
  let headers : gmap string string := ∅ in
  let headers := <["X-User-Id" := user_ID (token_User t)]> headers in
  let headers := <["X-User-Name" := user_Name (token_User t)]> headers in
  let headers := <["X-User-Domain-Id" := user_DomainID (token_User t)]> headers in
  let headers :=
    <["X-User-Domain-Name" := userDomain_Name (user_Domain (token_User t))]> headers in
  let afterProject : reply (gmap string string) :=
    match token_Project t with
    | Some project =>
        let headers := <["X-Project-Name" := project_Name project]> headers in
        let headers := <["X-Project-Id" := project_ID project]> headers in
        match project_Domain project with
        | None => Panic nilDereference
        | Some d =>
            let headers := <["X-Project-Domain-Name" := domain_Name d]> headers in
            let headers :=
              <["X-Project-Domain-Id" := project_DomainID project]> headers in
            Return headers
        end
    | None => Return headers
    end in
  match afterProject with
  | Panic msg => Panic msg
  | Return headers =>
      let headers :=
        match token_Domain t with
        | Some domain =>
            let headers := <["X-Domain-Id" := domain_ID domain]> headers in
            <["X-Domain-Name" := domain_Name domain]> headers
        | None => headers
        end in
      let headers :=
        match token_Roles t with
        | Some roles => <["X-Roles" := Join (roleNames roles) ","]> headers
        | None => headers
        end in
      Return headers
  end.

(** ** Collaborators *)

(** A Go [error], by its message. *)
Definition error : Type := string.

Inductive fallible (A : Type) : Type :=
| Ok (a : A)
| Err (e : error).
Arguments Ok {A} a.
Arguments Err {A} e.

(** [interface Cache]: [Set(key, value, ttl)] and [Get(key, value) bool].
    [Cache_Get] answers [Some t] when Go's [Get] returns true having written
    [t] through the pointer it was given, and [None] when it returns false. *)
Class Cache (C : Type) := {
  Cache_Set : C -> string -> token -> Time.Duration -> C;
  Cache_Get : C -> string -> option token * C }.

(** [type Auth struct]; the [TokenCache] field lives in the world below. *)
Record Auth := {
  Endpoint : string;
  UserAgent : string;
  CacheTime : Time.Duration }.

(** The defaults [Handler] fills in. *)
Definition Handler (a : Auth) : Auth :=
  let a := if decide (CacheTime a = 0)
           then {| Endpoint := Endpoint a; UserAgent := UserAgent a;
                   CacheTime := 5 * Time.Minute |}
           else a in
  if decide (UserAgent a = "")
  then {| Endpoint := Endpoint a; UserAgent := "go-keystone-middleware/1.0";
          CacheTime := CacheTime a |}
  else a.

(** The request [validate] sends and the response it reads. *)
Record Request := {
  Request_Method : string;
  Request_URL : string;
  Request_Header : Header.t }.

Record Response := {
  StatusCode : Z;
  Status : string;
  Body : string }.

(** What the handler cannot decide itself: whether a URL parses
    ([http.NewRequest]), the answer of the identity service to the n-th
    request sent ([h.client.Do]), the JSON decoding of a body, and the
    successive readings of [time.Now()]. *)
Record Env := {
  url_Parse : string -> option error;
  client_Do : nat -> Request -> fallible Response;
  json_Decode : string -> fallible authResponse;
  time_Now : nat -> Time.t }.

(** The two lines the handler prints. *)
Inductive line : Type :=
| TokenFromCache (t : token)
| FailedToValidate (err : error).

(** The state a request runs in: the cache ([None] is a nil [TokenCache]),
    the number of clock readings taken, the requests sent to the identity
    service, the [Set] calls made on the cache, the lines printed and the
    headers the next handler was called with. *)
Record World (C : Type) := {
  TokenCache : option C;
  ticks : nat;
  sent : list Request;
  stored : list (string * token * Time.Duration);
  stdout : list line;
  delegated : list Header.t }.
Arguments TokenCache {C} _.
Arguments ticks {C} _.
Arguments sent {C} _.
Arguments stored {C} _.
Arguments stdout {C} _.
Arguments delegated {C} _.

(** ** The handler *)

(** The first two statements of [ServeHTTP]: the request header once
    filtered and marked Invalid. *)
Definition sanitized (hd : Header.t) : Header.t :=
  Header.Set_ (filterIncomingHeaders hd) "X-Identity-Status" "Invalid".

(** The loop [for k, v := range context.Headers()] over the entries of
    the map. *)
Definition setAll (hd : Header.t) (m : gmap string string) : Header.t :=
  foldl (fun hd kv => Header.Set_ hd (fst kv) (snd kv)) hd (map_to_list m).

(** The last statements of [ServeHTTP], once [context] is not nil: the
    status is set before [context.Headers()] is called. *)
Definition confirm (hd : Header.t) (context : token) : reply unit * Header.t :=
  let hd := Header.Set_ hd "X-Identity-Status" "Confirmed" in
  match Headers context with
  | Panic msg => (Panic msg, hd)
  | Return m => (Return tt, setAll hd m)
  end.

Section Gate.

Context {C : Type} `{!Cache C}.
Variable env : Env.

Definition M (A : Type) : Type := World C -> A * World C.

Definition ret {A} (a : A) : M A := fun w => (a, w).
Definition bind {A B} (m : M A) (k : A -> M B) : M B :=
  fun w => let (a, w') := m w in k a w'.

Notation "'let*' x ':=' m 'in' k" := (bind m (fun x => k))
  (at level 10, x name, m at level 100, k at level 200).

Definition Now : M Time.t := fun w =>
  (time_Now env (ticks w),
   {| TokenCache := TokenCache w; ticks := S (ticks w); sent := sent w;
      stored := stored w; stdout := stdout w; delegated := delegated w |}).

Definition Println (l : line) : M unit := fun w =>
  (tt, {| TokenCache := TokenCache w; ticks := ticks w; sent := sent w;
          stored := stored w; stdout := stdout w ++ [l];
          delegated := delegated w |}).

Definition Do (req : Request) : M (fallible Response) := fun w =>
  (client_Do env (length (sent w)) req,
   {| TokenCache := TokenCache w; ticks := ticks w; sent := sent w ++ [req];
      stored := stored w; stdout := stdout w; delegated := delegated w |}).

(** [h.TokenCache.Get(authToken, &cachedToken)] behind the nil test. *)
Definition cacheGet (key : string) : M (option token) := fun w =>
  match TokenCache w with
  | None => (None, w)
  | Some c =>
      let (found, c') := Cache_Get c key in
      (found,
       {| TokenCache := Some c'; ticks := ticks w; sent := sent w;
          stored := stored w; stdout := stdout w; delegated := delegated w |})
  end.

Definition cacheSet (key : string) (t : token) (ttl : Time.Duration) : M unit :=
  fun w =>
    match TokenCache w with
    | None => (tt, w)
    | Some c =>
        (tt,
         {| TokenCache := Some (Cache_Set c key t ttl); ticks := ticks w;
            sent := sent w; stored := stored w ++ [(key, t, ttl)];
            stdout := stdout w; delegated := delegated w |})
    end.

Definition hasCache : M bool := fun w => (bool_decide (is_Some (TokenCache w)), w).

(** The deferred [h.handler.ServeHTTP(w, req)]. *)
Definition next (hd : Header.t) : M unit := fun w =>
  (tt, {| TokenCache := TokenCache w; ticks := ticks w; sent := sent w;
          stored := stored w; stdout := stdout w;
          delegated := delegated w ++ [hd] |}).

(** [http.NewRequest(method, url, nil)] *)
Definition NewRequest (method url : string) : fallible Request :=
  match url_Parse env url with
  | Some err => Err err
  | None => Ok {| Request_Method := method; Request_URL := url;
                  Request_Header := ∅ |}
  end.

Definition setHeader (req : Request) (key value : string) : Request :=
  {| Request_Method := Request_Method req; Request_URL := Request_URL req;
     Request_Header := Header.Set_ (Request_Header req) key value |}.

Definition validate (h : Auth) (tok : string) : M (fallible token) :=
  match NewRequest "GET" (Endpoint h +:+ "/auth/tokens?nocatalog") with
  | Err err => ret (Err err)
  | Ok req =>
      let req := setHeader req "X-Auth-Token" tok in
      let req := setHeader req "X-Subject-Token" tok in
      let req := setHeader req "User-Agent" (UserAgent h) in
      let* r := Do req in
      match r with
      | Err err => ret (Err err)
      | Ok r =>
          if 400 <=? StatusCode r then ret (Err (Status r))
          else
            match json_Decode env (Body r) with
            | Err err => ret (Err err)
            | Ok resp =>
                match authResponse_Error resp with
                | Some e => ret (Err (Status r +:+ " : " +:+ error_Message e))
                | None =>
                    if negb (StatusCode r =? 200) then ret (Err (Status r))
                    else
                      match authResponse_Token resp with
                      | None =>
                          ret (Err "Response didn't contain token context")
                      | Some t =>
                          let* now := Now in
                          if negb (Valid t now)
                          then ret (Err "Returned token is not valid")
                          else ret (Ok t)
                      end
                end
            end
      end
  end.

(** The body of [ServeHTTP], up to its return or panic, with the request
    header it leaves behind. *)
(** The block [if h.TokenCache != nil] that stores a validated token. *)
Definition cacheWrite (h : Auth) (authToken : string) (context : token) : M unit :=
  let* configured := hasCache in
  if configured : bool then
    let* now := Now in
    let expiresIn := Time.Sub (token_ExpiresAt context) now in
    let ttl := if expiresIn <? CacheTime h then expiresIn else CacheTime h in
    cacheSet authToken context ttl
  else ret tt.

(** The body of [ServeHTTP], up to its return or panic, with the request
    header it leaves behind. *)
Definition serve (h : Auth) (hd : Header.t) : M (reply unit * Header.t) :=
  let hd := sanitized hd in
  let authToken := Header.Get hd "X-Auth-Token" in
  if decide (authToken = "") then ret (Return tt, hd)
  else
    let* cached := cacheGet authToken in
    let* context :=
      match cached with
      | Some cachedToken =>
          let* _ := Println (TokenFromCache cachedToken) in
          ret (Some cachedToken)
      | None =>
          let* r := validate h authToken in
          match r with
          | Err err =>
              let* _ := Println (FailedToValidate err) in
              ret None
          | Ok context =>
              let* _ := cacheWrite h authToken context in
              ret (Some context)
          end
      end in
    match context with
    | None => ret (Return tt, hd)
    | Some context => ret (confirm hd context)
    end.

(** [ServeHTTP]: the deferred call to the next handler runs when the body
    returns and when it panics, with the header the body left. *)
Definition ServeHTTP (h : Auth) (hd : Header.t) : M (reply unit) :=
  let* r := serve h hd in
  let* _ := next (snd r) in
  ret (fst r).

End Gate.

Arguments M C : clear implicits.

(** The request [validate] builds for a token. *)
Definition validationRequest (h : Auth) (tok : string) : Request :=
  {| Request_Method := "GET";
     Request_URL := Endpoint h +:+ "/auth/tokens?nocatalog";
     Request_Header :=
       Header.Set_
         (Header.Set_ (Header.Set_ ∅ "X-Auth-Token" tok) "X-Subject-Token" tok)
         "User-Agent" (UserAgent h) |}.

(** The failure cases the specification lists for the validator, in its
    words: transport failure, status of 400 or more, a body that does not
    decode, an error object, no token object, a validity window that does
    not contain now.  [n] counts the requests sent before and [now] is the
    clock reading. *)
Definition enumeratedFailure (env : Env) (h : Auth) (tok : string)
    (n : nat) (now : Time.t) : Prop :=
  match client_Do env n (validationRequest h tok) with
  | Err _ => True
  | Ok r =>
      400 <= StatusCode r
      \/ match json_Decode env (Body r) with
         | Err _ => True
         | Ok resp =>
             is_Some (authResponse_Error resp)
             \/ match authResponse_Token resp with
                | None => True
                | Some t => ~ (token_IssuedAt t <= now < token_ExpiresAt t)
                end
         end
  end.

(** The same list with the two cases [validate] adds (a URL that does not
    parse, a status other than 200) and the window as [Valid] tests it. *)
Definition validateFails (env : Env) (h : Auth) (tok : string)
    (n : nat) (now : Time.t) : Prop :=
  is_Some (url_Parse env (Endpoint h +:+ "/auth/tokens?nocatalog"))
  \/ match client_Do env n (validationRequest h tok) with
     | Err _ => True
     | Ok r =>
         400 <= StatusCode r
         \/ match json_Decode env (Body r) with
            | Err _ => True
            | Ok resp =>
                is_Some (authResponse_Error resp)
                \/ StatusCode r <> 200
                \/ match authResponse_Token resp with
                   | None => True
                   | Some t => Valid t now = false
                   end
            end
     end.

(** ** A cache for the examples: a map that ignores the ttl, as the
    [cacheMock] of the tests. *)

#[export] Instance mapCache : Cache (gmap string token) := {
  Cache_Set c key value _ := <[key := value]> c;
  Cache_Get c key := (c !! key, c) }.

Definition emptyWorld (cache : option (gmap string token)) : World (gmap string token) :=
  {| TokenCache := cache; ticks := 0; sent := []; stored := []; stdout := [];
     delegated := [] |}.

(** ** Header names *)

(** The names [Headers] can assign. *)
Definition projectedNames : list string :=
  [ "X-User-Id"; "X-User-Name"; "X-User-Domain-Id"; "X-User-Domain-Name";
    "X-Project-Name"; "X-Project-Id"; "X-Project-Domain-Name";
    "X-Project-Domain-Id"; "X-Domain-Id"; "X-Domain-Name"; "X-Roles" ].

(** ** Example data *)

Module Examples.

Definition arc : user :=
  {| user_ID := "u-42e54ca0c"; user_Name := "arc"; user_Email := "";
     user_Enabled := true; user_DomainID := "o-testdomain";
     user_Domain := {| userDomain_ID := "o-testdomain";
                       userDomain_Name := "testdomain" |} |}.

Definition member : role := {| role_ID := "r-member"; role_Name := "member" |}.
Definition blafasel : role :=
  {| role_ID := "r-blafasel"; role_Name := "blafasel" |}.

Definition testdomain : domain :=
  {| domain_ID := "o-testdomain"; domain_Name := "testdomain";
     domain_Enabled := true |}.

(** 2015-10-08T15:09:12.355Z and one year later, in nanoseconds. *)
Definition issued : Time.t := 1444316952355000000.
Definition expires : Time.t := 1475939352355000000.
(** 2015-10-08T16:00:00Z, then one second later. *)
Definition clock (n : nat) : Time.t :=
  1444320000000000000 + Z.of_nat n * Time.Second.

Definition unscoped : token :=
  {| token_ExpiresAt := expires; token_IssuedAt := issued; token_User := arc;
     token_Project := None; token_Domain := None; token_Roles := None |}.

Definition projectScoped : token :=
  {| token_ExpiresAt := expires; token_IssuedAt := issued; token_User := arc;
     token_Project :=
       Some {| project_ID := "p-d61611de1"; project_DomainID := "o-testdomain";
               project_Name := "Arc"; project_Enabled := true;
               project_Domain := Some testdomain |};
     token_Domain := None; token_Roles := Some [member] |}.

Definition domainScoped : token :=
  {| token_ExpiresAt := expires; token_IssuedAt := issued; token_User := arc;
     token_Project := None; token_Domain := Some testdomain;
     token_Roles := Some [member; blafasel] |}.

(** A project whose [domain_id] field and embedded domain disagree. *)
Definition otherDomain : domain :=
  {| domain_ID := "o-other"; domain_Name := "other"; domain_Enabled := true |}.
Definition splitProject : project :=
  {| project_ID := "p-1"; project_DomainID := "o-testdomain";
     project_Name := "Arc"; project_Enabled := true;
     project_Domain := Some otherDomain |}.
Definition splitToken : token :=
  {| token_ExpiresAt := expires; token_IssuedAt := issued; token_User := arc;
     token_Project := Some splitProject; token_Domain := None;
     token_Roles := Some [member] |}.

(** A project that came without its embedded domain. *)
Definition bareProject : project :=
  {| project_ID := "p-1"; project_DomainID := "o-testdomain";
     project_Name := "Arc"; project_Enabled := true;
     project_Domain := None |}.
Definition bareToken : token :=
  {| token_ExpiresAt := expires; token_IssuedAt := issued; token_User := arc;
     token_Project := Some bareProject; token_Domain := None;
     token_Roles := Some [member] |}.

(** A token expiring half a second after the clock reading 1.2s, and one
    issued three tenths of a second after it. *)
Definition subSecond : token :=
  {| token_ExpiresAt := 1700000000; token_IssuedAt := 0; token_User := arc;
     token_Project := None; token_Domain := None; token_Roles := None |}.
Definition notYetIssued : token :=
  {| token_ExpiresAt := 5000000000; token_IssuedAt := 1500000000;
     token_User := arc; token_Project := None; token_Domain := None;
     token_Roles := None |}.

(** A token that expired long before [clock 0]. *)
Definition expired : token :=
  {| token_ExpiresAt := 1000000000; token_IssuedAt := 0; token_User := arc;
     token_Project := None; token_Domain := None; token_Roles := None |}.

(** An identity service that always gives the same answer, whose body
    always decodes to the same envelope. *)
Definition service (answer : fallible Response)
    (decoded : fallible authResponse) : Env :=
  {| url_Parse := fun _ => None;
     client_Do := fun _ _ => answer;
     json_Decode := fun _ => decoded;
     time_Now := clock |}.

Definition envelope (t : token) : fallible authResponse :=
  Ok {| authResponse_Error := None; authResponse_Token := Some t |}.

Definition ok200 : fallible Response :=
  Ok {| StatusCode := 200; Status := "200 OK"; Body := "{...}" |}.
Definition created201 : fallible Response :=
  Ok {| StatusCode := 201; Status := "201 Created"; Body := "{...}" |}.
Definition unauthorized401 : fallible Response :=
  Ok {| StatusCode := 401; Status := "401 Unauthorized"; Body := "{...}" |}.

Definition answers201 : Env := service created201 (envelope projectScoped).
Definition answersExpired : Env := service ok200 (envelope expired).
Definition answersProject : Env := service ok200 (envelope projectScoped).
Definition answers401 : Env :=
  service unauthorized401 (Err "unexpected end of JSON input").

Definition auth : Auth :=
  Handler {| Endpoint := "http://keystone:5000/v3"; UserAgent := "";
             CacheTime := 0 |}.

(** Inbound request headers. *)
Definition withToken : Header.t := {[ "X-Auth-Token" := ["1234"] ]}.
Definition spoofed : Header.t :=
  <["X-Service-Catalog" := ["[]"]]>
    (<["X-Identity-Status" := ["Confirmed"]]>
       (<["X-Project-Id" := ["p-1234"]]> ∅)).

Definition noCache : World (gmap string token) := emptyWorld None.
Definition freshCache : World (gmap string token) := emptyWorld (Some ∅).
Definition staleCache : World (gmap string token) :=
  emptyWorld (Some {[ "1234" := expired ]}).

(** The world a first request with the token leaves behind. *)
Definition afterFirst : World (gmap string token) :=
  snd (ServeHTTP answersProject auth withToken freshCache).

(** An endpoint that does not parse as a URL. *)
Definition badEndpoint : Env :=
  {| url_Parse := fun _ => Some "parse error";
     client_Do := fun _ _ => ok200;
     json_Decode := fun _ => envelope projectScoped;
     time_Now := clock |}.

(** A 200 answer whose envelope holds an error object beside a token. *)
Definition answersError : Env :=
  service ok200
    (Ok {| authResponse_Error :=
             Some {| error_Code := 401; error_Message := "token revoked";
                     error_Title := "Unauthorized" |};
           authResponse_Token := Some projectScoped |}).

(** A 200 answer whose token has a project without its domain. *)
Definition answersBare : Env := service ok200 (envelope bareToken).

(** The request with the token and a planted project id. *)
Definition planted : Header.t := <["X-Project-Id" := ["p-1234"]]> withToken.

End Examples.

(** ** Lemmas on the header map *)

Section HeaderLemmas.

Implicit Types (h : Header.t) (k key : string).

Lemma filteredNames_canonical :
  Forall (fun k => Textproto.CanonicalMIMEHeaderKey k = k) filteredNames.
Proof. repeat constructor. Qed.

Lemma projectedNames_canonical :
  Forall (fun k => Textproto.CanonicalMIMEHeaderKey k = k) projectedNames.
Proof. repeat constructor. Qed.

Lemma projectedNames_filtered :
  Forall (fun k => k ∈ filteredNames) projectedNames.
Proof. compute_done. Qed.

Lemma lookup_Del_all (names : list string) h k :
  foldl Header.Del h names !! k =
  if decide (k ∈ Textproto.CanonicalMIMEHeaderKey <$> names) then None
  else h !! k.
Proof.
  revert h. induction names as [|n names IH]; intros h.
  - done.
  - rewrite fmap_cons. cbn [foldl]. rewrite IH. unfold Header.Del.
    destruct (decide (k ∈ Textproto.CanonicalMIMEHeaderKey <$> names))
      as [Hin|Hout];
      destruct (decide (k ∈ Textproto.CanonicalMIMEHeaderKey n
                          :: (Textproto.CanonicalMIMEHeaderKey <$> names)))
      as [Hin'|Hout']; try done.
    + exfalso. apply Hout'. by apply list_elem_of_further.
    + apply elem_of_cons in Hin' as [->|?]; [apply lookup_delete_eq | done].
    + apply lookup_delete_ne. intros <-. apply Hout', list_elem_of_here.
Qed.

Lemma lookup_filterIncomingHeaders h k :
  filterIncomingHeaders h !! k =
  if decide (k ∈ filteredNames) then None else h !! k.
Proof.
  unfold filterIncomingHeaders. rewrite lookup_Del_all.
  replace (Textproto.CanonicalMIMEHeaderKey <$> filteredNames)
    with filteredNames by reflexivity.
  done.
Qed.

Lemma Get_filterIncomingHeaders h k :
  k ∈ filteredNames -> Header.Get (filterIncomingHeaders h) k = "".
Proof.
  intros Hk. unfold Header.Get.
  assert (Textproto.CanonicalMIMEHeaderKey k = k) as ->.
  { exact (proj1 (Forall_forall _ _) filteredNames_canonical k Hk). }
  rewrite lookup_filterIncomingHeaders. by rewrite decide_True.
Qed.

Lemma Get_Set_eq h k v :
  Header.Get (Header.Set_ h k v) k = v.
Proof. unfold Header.Get, Header.Set_. by rewrite lookup_insert_eq. Qed.

Lemma Get_Set_ne h k k' v :
  Textproto.CanonicalMIMEHeaderKey k ≠ Textproto.CanonicalMIMEHeaderKey k' ->
  Header.Get (Header.Set_ h k v) k' = Header.Get h k'.
Proof. intros Hne. unfold Header.Get, Header.Set_. by rewrite lookup_insert_ne. Qed.

(** Assigning the entries of a list with distinct canonical keys. *)
Lemma lookup_foldl_Set (l : list (string * string)) h k :
  NoDup l.*1 ->
  Forall (fun kv => Textproto.CanonicalMIMEHeaderKey kv.1 = kv.1) l ->
  foldl (fun hd kv => Header.Set_ hd kv.1 kv.2) h l !! k =
  match (list_to_map l : gmap string string) !! k with
  | Some v => Some [v]
  | None => h !! k
  end.
Proof.
  revert h. induction l as [|[k0 v0] l IH]; intros h Hnd Hcan; simpl.
  - by rewrite lookup_empty.
  - apply NoDup_cons in Hnd as [Hk0 Hnd].
    apply Forall_cons in Hcan as [Hc0 Hcan]. simpl in Hc0.
    rewrite IH by done. unfold Header.Set_. rewrite Hc0.
    destruct (decide (k = k0)) as [->|Hne].
    + rewrite lookup_insert_eq.
      rewrite (not_elem_of_list_to_map_1 _ _ Hk0).
      by rewrite lookup_insert_eq.
    + rewrite (lookup_insert_ne _ k0 k) by done.
      by rewrite (lookup_insert_ne _ k0 k) by done.
Qed.

End HeaderLemmas.

(** ** The header projection *)

Lemma roleNames_map (roles : list role) : roleNames roles = role_Name <$> roles.
Proof.
  unfold roleNames.
  enough (forall acc, foldl (fun names r => names ++ [role_Name r]) acc roles
                      = acc ++ (role_Name <$> roles)) as Hgen
      by exact (Hgen []).
  induction roles as [|r roles IH]; intros acc; cbn [foldl].
  - by rewrite fmap_nil, app_nil_r.
  - rewrite IH, fmap_cons. by rewrite <- app_assoc.
Qed.

(** When [Headers] returns, and what it panics on. *)
Lemma Headers_returns (t : token) :
  (forall p, token_Project t = Some p -> is_Some (project_Domain p)) ->
  exists m, Headers t = Return m.
Proof.
  intros Hdom. unfold Headers.
  destruct (token_Project t) as [p|]; [|eauto].
  destruct (Hdom p eq_refl) as [d ->]. eauto.
Qed.

(** C9: a record with a project scope whose embedded domain is nil makes
    the header projection panic with a nil pointer dereference; no header
    map is returned. *)
Theorem Headers_nil_project_domain_panics (t : token) (p : project) :
  token_Project t = Some p ->
  project_Domain p = None ->
  Headers t = Panic nilDereference.
Proof.
  intros Hp Hd. unfold Headers. rewrite Hp, Hd. reflexivity.
Qed.

Lemma Headers_nil_project_domain_panics_witness :
  Headers Examples.bareToken = Panic nilDereference.
Proof.
  apply (Headers_nil_project_domain_panics Examples.bareToken Examples.bareProject);
    reflexivity.
Defined.

(** C2, as stated, fails: the X-Project-Domain-Id header of a project whose
    [domain_id] is o-testdomain and whose embedded domain has id o-other is
    o-testdomain. *)
Lemma project_domain_id_not_from_embedded_domain :
  exists m,
    Headers Examples.splitToken = Return m
    /\ m !! "X-Project-Domain-Id" = Some "o-testdomain"
    /\ m !! "X-Project-Domain-Id"
       <> Some (domain_ID Examples.otherDomain).
Proof.
  eexists. split; [reflexivity|]. split; [reflexivity|]. discriminate.
Qed.

(** C2, amended: for a record with a project scope whose embedded domain is
    present, X-Project-Domain-Name is the name of the embedded domain and
    X-Project-Domain-Id is the project's own [domain_id] field; neither
    reads the top-level domain scope. *)
Theorem Headers_project_domain (t : token) (p : project) (d : domain) :
  token_Project t = Some p ->
  project_Domain p = Some d ->
  exists m,
    Headers t = Return m
    /\ m !! "X-Project-Domain-Name" = Some (domain_Name d)
    /\ m !! "X-Project-Domain-Id" = Some (project_DomainID p).
Proof.
  intros Hp Hd. unfold Headers. rewrite Hp, Hd.
  eexists. split; [reflexivity|].
  destruct (token_Domain t), (token_Roles t); split;
    repeat (rewrite lookup_insert_ne by discriminate);
    by rewrite lookup_insert_eq.
Qed.

Lemma Headers_project_domain_witness :
  exists m,
    Headers Examples.splitToken = Return m
    /\ m !! "X-Project-Domain-Name" = Some "other"
    /\ m !! "X-Project-Domain-Id" = Some "o-testdomain".
Proof.
  apply (Headers_project_domain Examples.splitToken Examples.splitProject
           Examples.otherDomain); reflexivity.
Defined.

(** [strings.Join] agrees with the standard library's [String.concat]. *)
Lemma Join_concat (elems : list string) (sep : string) :
  Join elems sep = String.concat sep elems.
Proof.
  induction elems as [|e rest IH]; [reflexivity|].
  destruct rest as [|e' rest']; [reflexivity|].
  cbn [Join String.concat]. cbn [Join String.concat] in IH. by rewrite IH.
Qed.

(** C5, as stated, fails: the record [Examples.bareToken] has the role list
    [member], yet its projection panics on the project without embedded
    domain and returns no map, so no X-Roles header is emitted for it. *)
Lemma roles_header_not_for_every_record :
  token_Roles Examples.bareToken = Some [Examples.member]
  /\ Headers Examples.bareToken = Panic nilDereference
  /\ ~ (exists m, Headers Examples.bareToken = Return m
                  /\ m !! "X-Roles" = Some "member").
Proof.
  split; [reflexivity|]. split; [reflexivity|].
  intros (m & Hm & _). discriminate Hm.
Qed.

(** C5, amended: for every record whose project, if it has one, carries its
    embedded domain, the projection returns a map in which X-Roles is the
    role names joined with a single comma in their order when [Roles] is
    non-nil (the empty string for an empty list, the name itself for one
    role, each further name after one comma) and is absent when [Roles] is
    nil. *)
Theorem Headers_roles (t : token) :
  (forall p, token_Project t = Some p -> is_Some (project_Domain p)) ->
  exists m,
    Headers t = Return m
    /\ m !! "X-Roles"
       = (fun roles => String.concat "," (role_Name <$> roles)) <$> token_Roles t
    /\ (token_Roles t = None -> m !! "X-Roles" = None)
    /\ (token_Roles t = Some [] -> m !! "X-Roles" = Some "")
    /\ (forall r, token_Roles t = Some [r] -> m !! "X-Roles" = Some (role_Name r))
    /\ (forall r r' roles,
          token_Roles t = Some (r :: r' :: roles) ->
          m !! "X-Roles"
          = Some (role_Name r +:+ "," +:+
                  String.concat "," (role_Name <$> r' :: roles))).
Proof.
  intros Hdom.
  assert (exists m,
            Headers t = Return m
            /\ m !! "X-Roles"
               = (fun roles => String.concat "," (role_Name <$> roles))
                 <$> token_Roles t) as (m & Hm & Hroles).
  { unfold Headers.
    destruct (token_Project t) as [p|] eqn:Hp.
    - destruct (Hdom p eq_refl) as [d Hd]. rewrite Hd.
      eexists. split; [reflexivity|].
      destruct (token_Domain t), (token_Roles t) as [roles|];
        cbn [fmap option_fmap option_map];
        rewrite ?roleNames_map, ?Join_concat, ?lookup_insert_eq; try done;
        by repeat (rewrite lookup_insert_ne by discriminate).
    - eexists. split; [reflexivity|].
      destruct (token_Domain t), (token_Roles t) as [roles|];
        cbn [fmap option_fmap option_map];
        rewrite ?roleNames_map, ?Join_concat, ?lookup_insert_eq; try done;
        by repeat (rewrite lookup_insert_ne by discriminate). }
  exists m. split; [done|]. split; [done|].
  rewrite Hroles.
  split; [by intros ->|]. split; [by intros ->|].
  split; [by intros r ->|]. by intros r r' roles ->.
Qed.

Lemma Headers_roles_witness :
  exists m,
    Headers Examples.domainScoped = Return m
    /\ m !! "X-Roles" = Some "member,blafasel".
Proof.
  destruct (Headers_roles Examples.domainScoped) as (m & Hm & Hroles & _).
  - intros p Hp. discriminate Hp.
  - exists m. split; [exact Hm | exact Hroles].
Defined.

Example domainScoped_roles_header :
  exists m, Headers Examples.domainScoped = Return m
            /\ m !! "X-Roles" = Some "member,blafasel".
Proof. eexists. split; reflexivity. Qed.

(** ** The validity window *)

Lemma Valid_spec (t : token) (now : Time.t) :
  Valid t now = true <->
  Time.Unix (token_IssuedAt t) <= Time.Unix now < Time.Unix (token_ExpiresAt t).
Proof. unfold Valid. rewrite andb_true_iff, Z.leb_le, Z.ltb_lt. tauto. Qed.

(** C6, as stated, fails: at 1.2s a token issued at 0s and expiring at 1.7s
    has now inside its window and is not valid, and a token issued at 1.5s
    has now before its window and is valid. *)
Lemma Valid_not_exact_window :
  (token_IssuedAt Examples.subSecond <= 1200000000
     < token_ExpiresAt Examples.subSecond
   /\ Valid Examples.subSecond 1200000000 = false)
  /\ (~ token_IssuedAt Examples.notYetIssued <= 1200000000
      /\ Valid Examples.notYetIssued 1200000000 = true).
Proof.
  cbn. split; split; [lia | reflexivity | lia | reflexivity].
Qed.

(** ** The validator *)

Section ValidateLemmas.

Context {C : Type} `{!Cache C}.
Variable env : Env.
Implicit Types (w : World C) (h : Auth) (tok : string).

(** What a call of [validate] leaves untouched, and what it reads. *)
Lemma validate_frame h tok w :
  let w' := snd (validate env h tok w) in
  TokenCache w' = TokenCache w /\ stored w' = stored w
  /\ stdout w' = stdout w /\ delegated w' = delegated w
  /\ match fst (validate env h tok w) with
     | Ok t =>
         ticks w' = S (ticks w)
         /\ sent w' = sent w ++ [validationRequest h tok]
         /\ Valid t (time_Now env (ticks w)) = true
     | Err _ =>
         sent w' = sent w \/ sent w' = sent w ++ [validationRequest h tok]
     end.
Proof.
  unfold validate, NewRequest.
  destruct (url_Parse env _); [cbn; tauto|].
  change (setHeader _ "User-Agent" (UserAgent h)) with (validationRequest h tok).
  unfold bind, Do.
  destruct (client_Do env _ _) as [r|e]; [|cbn; tauto].
  destruct (400 <=? StatusCode r); [cbn; tauto|].
  destruct (json_Decode env _) as [resp|e]; [|cbn; tauto].
  destruct (authResponse_Error resp); [cbn; tauto|].
  destruct (negb (StatusCode r =? 200)); [cbn; tauto|].
  destruct (authResponse_Token resp) as [t|]; [|cbn; tauto].
  unfold Now. cbn [ticks].
  destruct (Valid t _) eqn:Hv; cbn; tauto.
Qed.

Lemma validate_result h tok w :
  fst (validate env h tok w) =
  match url_Parse env (Endpoint h +:+ "/auth/tokens?nocatalog") with
  | Some err => Err err
  | None =>
      match client_Do env (length (sent w)) (validationRequest h tok) with
      | Err err => Err err
      | Ok r =>
          if 400 <=? StatusCode r then Err (Status r)
          else
            match json_Decode env (Body r) with
            | Err err => Err err
            | Ok resp =>
                match authResponse_Error resp with
                | Some e => Err (Status r +:+ " : " +:+ error_Message e)
                | None =>
                    if negb (StatusCode r =? 200) then Err (Status r)
                    else
                      match authResponse_Token resp with
                      | None => Err "Response didn't contain token context"
                      | Some t =>
                          if Valid t (time_Now env (ticks w)) then Ok t
                          else Err "Returned token is not valid"
                      end
                end
            end
      end
  end.
Proof.
  unfold validate, NewRequest.
  destruct (url_Parse env _); [done|].
  change (setHeader _ "User-Agent" (UserAgent h)) with (validationRequest h tok).
  unfold bind, Do.
  destruct (client_Do env _ _) as [r|e]; [|done].
  destruct (400 <=? StatusCode r); [done|].
  destruct (json_Decode env _) as [resp|e]; [|done].
  destruct (authResponse_Error resp); [done|].
  destruct (negb (StatusCode r =? 200)); [done|].
  destruct (authResponse_Token resp) as [t|]; [|done].
  unfold Now. cbn [ticks]. by destruct (Valid t _).
Qed.

End ValidateLemmas.

(** C3, as stated, fails: the identity service answers 201 Created with an
    envelope holding a token whose window contains now; none of the listed
    cases applies and [validate] returns the error 201 Created. *)
Lemma validate_rejects_201 :
  fst (validate Examples.answers201 Examples.auth "1234" (emptyWorld None))
  = Err "201 Created"
  /\ ~ enumeratedFailure Examples.answers201 Examples.auth "1234" 0
        (Examples.clock 0).
Proof.
  split; [reflexivity|].
  unfold enumeratedFailure. cbn.
  intros [Hs|[[e He]|Hw]]; [lia | discriminate | apply Hw].
  unfold Examples.issued, Examples.expires, Examples.clock, Time.Second. lia.
Qed.

(** C3, amended: [validate] returns an error exactly when the URL does not
    parse, the transport fails, the status is 400 or more, the body does not
    decode, the envelope has an error object, the status is not 200, the
    envelope has no token, or [Valid] is false for the token at the clock
    reading; in every other case it returns the decoded token. *)
Theorem validate_fails_iff {C : Type} `{!Cache C} (env : Env) (h : Auth)
    (tok : string) (w : World C) :
  ((exists e, fst (validate env h tok w) = Err e)
   <-> validateFails env h tok (length (sent w)) (time_Now env (ticks w)))
  /\ ((exists t, fst (validate env h tok w) = Ok t)
      <-> ~ validateFails env h tok (length (sent w)) (time_Now env (ticks w)))
  /\ forall t, fst (validate env h tok w) = Ok t ->
       exists r resp,
         client_Do env (length (sent w)) (validationRequest h tok) = Ok r
         /\ json_Decode env (Body r) = Ok resp
         /\ authResponse_Token resp = Some t.
Proof.
  rewrite validate_result. unfold validateFails.
  destruct (url_Parse env _) as [e0|].
  { split; [|split].
    - split; [intros _; left; eauto | eauto].
    - split; [intros [t Ht]; discriminate | intros Hn; destruct Hn; left; eauto].
    - intros t Ht; discriminate. }
  destruct (client_Do env _ _) as [r|e].
  2:{ split; [|split].
      - split; [tauto | eauto].
      - split; [intros [t Ht]; discriminate | tauto].
      - intros t Ht; discriminate. }
  destruct (Z.leb_spec 400 (StatusCode r)) as [Hs|Hs].
  { split; [|split].
    - split; [tauto | eauto].
    - split; [intros [t Ht]; discriminate | tauto].
    - intros t Ht; discriminate. }
  destruct (json_Decode env (Body r)) as [resp|e] eqn:Hdec.
  2:{ split; [|split].
      - split; [tauto | eauto].
      - split; [intros [t Ht]; discriminate | tauto].
      - intros t Ht; discriminate. }
  destruct (authResponse_Error resp) as [eb|].
  { split; [|split].
    - split; [intros _; right; right; left; eauto | eauto].
    - split; [intros [t Ht]; discriminate
             | intros Hn; destruct Hn; right; right; left; eauto].
    - intros t Ht; discriminate. }
  destruct (Z.eqb_spec (StatusCode r) 200) as [H200|H200]; cbn [negb].
  2:{ split; [|split].
      - split; [tauto | eauto].
      - split; [intros [t Ht]; discriminate | tauto].
      - intros t Ht; discriminate. }
  assert (~ is_Some (@None errorBody)) as HnoErr by (intros [? ?]; discriminate).
  assert (~ is_Some (@None error)) as HnoUrl by (intros [? ?]; discriminate).
  destruct (authResponse_Token resp) as [t|] eqn:Htok.
  2:{ split; [|split].
      - split; [tauto | eauto].
      - split; [intros [t Ht]; discriminate | tauto].
      - intros t Ht; discriminate. }
  destruct (Valid t _) eqn:Hv.
  - split; [|split].
    + split; [intros [e He]; discriminate|].
      intros [?|[?|[?|[?|?]]]]; try done; lia.
    + split; [|eauto].
      intros _ [?|[?|[?|[?|?]]]]; try done; lia.
    + intros t' [= <-]. exists r, resp. by rewrite Hdec.
  - split; [|split].
    + split; [tauto | eauto].
    + split; [intros [t' Ht]; discriminate | tauto].
    + intros t' Ht; discriminate.
Qed.

(** C6, amended: [Valid] holds exactly when issuedAt, now and expiresAt, each
    rounded down to whole Unix seconds, satisfy issuedAt <= now < expiresAt;
    a token decoded from a 200 answer without error object for which it
    does not hold is rejected with the error Returned token is not valid. *)
Theorem validate_window {C : Type} `{!Cache C} (env : Env) (h : Auth)
    (tok : string) (w : World C) (r : Response) (resp : authResponse)
    (t : token) :
  url_Parse env (Endpoint h +:+ "/auth/tokens?nocatalog") = None ->
  client_Do env (length (sent w)) (validationRequest h tok) = Ok r ->
  StatusCode r = 200 ->
  json_Decode env (Body r) = Ok resp ->
  authResponse_Error resp = None ->
  authResponse_Token resp = Some t ->
  (Valid t (time_Now env (ticks w)) = true
   <-> Time.Unix (token_IssuedAt t) <= Time.Unix (time_Now env (ticks w))
       < Time.Unix (token_ExpiresAt t))
  /\ fst (validate env h tok w) =
     if Valid t (time_Now env (ticks w)) then Ok t
     else Err "Returned token is not valid".
Proof.
  intros Hurl Hdo H200 Hdec Herr Htok.
  split; [apply Valid_spec|].
  rewrite validate_result, Hurl, Hdo, H200, Hdec, Herr, Htok. reflexivity.
Qed.

Lemma validate_window_witness :
  fst (validate Examples.answersExpired Examples.auth "1234" (emptyWorld None))
  = Err "Returned token is not valid".
Proof.
  exact (proj2 (validate_window Examples.answersExpired
                  Examples.auth "1234" (emptyWorld None) _ _ _
                  eq_refl eq_refl eq_refl eq_refl eq_refl eq_refl)).
Defined.

(** ** The request header after the handler *)

Lemma Headers_keys (t : token) (m : gmap string string) (k : string) :
  Headers t = Return m -> is_Some (m !! k) -> k ∈ projectedNames.
Proof.
  unfold Headers. intros Hm [v Hv].
  destruct (token_Project t) as [p|]; [destruct (project_Domain p); [|done]|];
    destruct (token_Domain t), (token_Roles t);
    injection Hm as <-;
    repeat (apply lookup_insert_Some in Hv as [[<- _]|[_ Hv]];
            [unfold projectedNames; set_solver|]);
    by rewrite lookup_empty in Hv.
Qed.

Lemma projectedNames_are_canonical (k : string) :
  k ∈ projectedNames -> Textproto.CanonicalMIMEHeaderKey k = k.
Proof. exact (proj1 (Forall_forall _ _) projectedNames_canonical k). Qed.

Lemma projectedNames_are_filtered (k : string) :
  k ∈ projectedNames -> k ∈ filteredNames.
Proof. exact (proj1 (Forall_forall _ _) projectedNames_filtered k). Qed.

Lemma status_not_projected : "X-Identity-Status" ∉ projectedNames.
Proof. compute_done. Qed.

Lemma token_not_filtered : "X-Auth-Token" ∉ filteredNames.
Proof. compute_done. Qed.

Lemma lookup_setAll (t : token) (m : gmap string string) (hd : Header.t)
    (k : string) :
  Headers t = Return m ->
  setAll hd m !! k = match m !! k with Some v => Some [v] | None => hd !! k end.
Proof.
  intros Hm. unfold setAll. rewrite lookup_foldl_Set.
  - by rewrite list_to_map_to_list.
  - apply NoDup_fst_map_to_list.
  - apply Forall_forall. intros [k' v'] Hin%elem_of_map_to_list. cbn.
    apply projectedNames_are_canonical. eapply Headers_keys; eauto.
Qed.

Lemma Get_sanitized_status (hd : Header.t) :
  Header.Get (sanitized hd) "X-Identity-Status" = "Invalid".
Proof. apply Get_Set_eq. Qed.

Lemma Get_sanitized_projected (hd : Header.t) (k : string) :
  k ∈ projectedNames -> Header.Get (sanitized hd) k = "".
Proof.
  intros Hk. unfold sanitized. rewrite Get_Set_ne.
  - by apply Get_filterIncomingHeaders, projectedNames_are_filtered.
  - rewrite (projectedNames_are_canonical k Hk). intros <-.
    exact (status_not_projected Hk).
Qed.

Lemma Get_sanitized_token (hd : Header.t) :
  Header.Get (sanitized hd) "X-Auth-Token" = Header.Get hd "X-Auth-Token".
Proof.
  unfold sanitized. rewrite Get_Set_ne by discriminate.
  unfold Header.Get. rewrite lookup_filterIncomingHeaders.
  rewrite decide_False; [done | exact token_not_filtered].
Qed.

(** The header [confirm] leaves: the status is Confirmed, each name of the
    projection carries the value projected for it, and the names the
    projection leaves out keep what they had. *)
Lemma confirm_header (hd : Header.t) (t : token) :
  Header.Get (snd (confirm hd t)) "X-Identity-Status" = "Confirmed"
  /\ match Headers t with
     | Return m =>
         fst (confirm hd t) = Return tt
         /\ forall k, k ∈ projectedNames ->
              Header.Get (snd (confirm hd t)) k =
              match m !! k with Some v => v | None => Header.Get hd k end
     | Panic msg =>
         fst (confirm hd t) = Panic msg
         /\ forall k, k ∈ projectedNames ->
              Header.Get (snd (confirm hd t)) k = Header.Get hd k
     end.
Proof.
  unfold confirm. destruct (Headers t) as [m|msg] eqn:Hm; cbn [fst snd].
  - split; [|split; [done|]].
    + unfold Header.Get. rewrite (lookup_setAll t) by done.
      destruct (m !! _) as [v|] eqn:Hv.
      * exfalso. assert ("X-Identity-Status" ∈ projectedNames) as Hin
          by (eapply Headers_keys; eauto).
        exact (status_not_projected Hin).
      * unfold Header.Set_. by rewrite lookup_insert_eq.
    + intros k Hk. unfold Header.Get.
      rewrite (projectedNames_are_canonical k Hk).
      rewrite (lookup_setAll t) by done.
      destruct (m !! k) as [v|]; [done|].
      unfold Header.Set_. rewrite lookup_insert_ne; [done|].
      intros <-. exact (status_not_projected Hk).
  - split; [apply Get_Set_eq | split; [done|]].
    intros k Hk. apply Get_Set_ne.
    rewrite (projectedNames_are_canonical k Hk). intros <-.
    exact (status_not_projected Hk).
Qed.

(** ** The paths through the handler *)

Section Paths.

Context {C : Type} `{!Cache C}.
Variable env : Env.
Implicit Types (w : World C) (h : Auth) (hd : Header.t) (tok : string).

Lemma cacheGet_frame tok w :
  let w1 := snd (cacheGet tok w) in
  ticks w1 = ticks w /\ sent w1 = sent w /\ stored w1 = stored w
  /\ stdout w1 = stdout w /\ delegated w1 = delegated w
  /\ (is_Some (TokenCache w1) <-> is_Some (TokenCache w)).
Proof.
  unfold cacheGet. destruct (TokenCache w) as [c|] eqn:Hc.
  - destruct (Cache_Get c tok) as [found c']. cbn.
    repeat split; eauto.
  - cbn. rewrite Hc. tauto.
Qed.

Lemma ttl_min (expiresIn cacheTime : Time.Duration) :
  (if expiresIn <? cacheTime then expiresIn else cacheTime)
  = Z.min cacheTime expiresIn.
Proof. destruct (Z.ltb_spec expiresIn cacheTime); lia. Qed.

Lemma cacheWrite_spec h tok t w :
  let w' := snd (cacheWrite env h tok t w) in
  sent w' = sent w /\ stdout w' = stdout w /\ delegated w' = delegated w
  /\ match TokenCache w with
     | None => w' = w
     | Some c =>
         ticks w' = S (ticks w)
         /\ stored w' =
            stored w ++
              [(tok, t,
                Z.min (CacheTime h)
                  (Time.Sub (token_ExpiresAt t) (time_Now env (ticks w))))]
     end.
Proof.
  unfold cacheWrite, bind, hasCache, Now, cacheSet.
  destruct (TokenCache w) as [c|] eqn:Hc.
  - rewrite bool_decide_eq_true_2 by eauto. cbn. rewrite Hc. cbn.
    rewrite ttl_min. tauto.
  - rewrite bool_decide_eq_false_2 by (intros [? ?]; discriminate).
    cbn. tauto.
Qed.

Lemma serve_no_token h hd w :
  Header.Get hd "X-Auth-Token" = "" ->
  serve env h hd w = ((Return tt, sanitized hd), w).
Proof.
  intros Hk. unfold serve. rewrite Get_sanitized_token, Hk.
  by rewrite decide_True.
Qed.

Lemma serve_hit h hd w tok t w1 :
  Header.Get hd "X-Auth-Token" = tok -> tok <> "" ->
  cacheGet tok w = (Some t, w1) ->
  serve env h hd w
  = (confirm (sanitized hd) t, snd (Println (TokenFromCache t) w1)).
Proof.
  intros Hk Hne Hget. unfold serve. rewrite Get_sanitized_token, Hk.
  rewrite decide_False by done. unfold bind at 1. rewrite Hget.
  reflexivity.
Qed.

Lemma serve_rejected h hd w tok w1 e w2 :
  Header.Get hd "X-Auth-Token" = tok -> tok <> "" ->
  cacheGet tok w = (None, w1) ->
  validate env h tok w1 = (Err e, w2) ->
  serve env h hd w
  = ((Return tt, sanitized hd), snd (Println (FailedToValidate e) w2)).
Proof.
  intros Hk Hne Hget Hv. unfold serve. rewrite Get_sanitized_token, Hk.
  rewrite decide_False by done. unfold bind at 1. rewrite Hget.
  unfold bind at 1. unfold bind at 1. rewrite Hv. reflexivity.
Qed.

Lemma serve_validated h hd w tok w1 t w2 :
  Header.Get hd "X-Auth-Token" = tok -> tok <> "" ->
  cacheGet tok w = (None, w1) ->
  validate env h tok w1 = (Ok t, w2) ->
  serve env h hd w
  = (confirm (sanitized hd) t, snd (cacheWrite env h tok t w2)).
Proof.
  intros Hk Hne Hget Hv. unfold serve. rewrite Get_sanitized_token, Hk.
  rewrite decide_False by done. unfold bind at 1. rewrite Hget.
  unfold bind at 1. unfold bind at 1. rewrite Hv.
  unfold bind at 1. destruct (cacheWrite env h tok t w2) as [[] w3].
  reflexivity.
Qed.

(** The deferred call: whatever the body did, the next handler is called
    once, with the header the body left. *)
Lemma ServeHTTP_defer h hd w :
  fst (ServeHTTP env h hd w) = fst (fst (serve env h hd w))
  /\ let w1 := snd (serve env h hd w) in
     let w' := snd (ServeHTTP env h hd w) in
     delegated w' = delegated w1 ++ [snd (fst (serve env h hd w))]
     /\ TokenCache w' = TokenCache w1 /\ ticks w' = ticks w1
     /\ sent w' = sent w1 /\ stored w' = stored w1 /\ stdout w' = stdout w1.
Proof.
  unfold ServeHTTP, bind. destruct (serve env h hd w) as [[r hd'] w1].
  cbn. tauto.
Qed.

End Paths.

(** ** The handler: failure, cache hit, cache write *)

Section GateTheorems.

Context {C : Type} `{!Cache C}.
Variable env : Env.
Implicit Types (w : World C) (h : Auth) (hd : Header.t) (tok : string).

(** C7: when the cache does not answer and [validate] returns an error,
    [ServeHTTP] returns without panic, prints the error, stores nothing,
    and calls the next handler once with the sanitized header, whose
    X-Identity-Status is Invalid and which carries none of the projected
    identity headers. *)
Theorem ServeHTTP_validation_failure h hd w tok w1 e w2 :
  Header.Get hd "X-Auth-Token" = tok -> tok <> "" ->
  cacheGet tok w = (None, w1) ->
  validate env h tok w1 = (Err e, w2) ->
  fst (ServeHTTP env h hd w) = Return tt
  /\ delegated (snd (ServeHTTP env h hd w)) = delegated w ++ [sanitized hd]
  /\ Header.Get (sanitized hd) "X-Identity-Status" = "Invalid"
  /\ (forall k, k ∈ projectedNames -> Header.Get (sanitized hd) k = "")
  /\ stored (snd (ServeHTTP env h hd w)) = stored w
  /\ stdout (snd (ServeHTTP env h hd w)) = stdout w ++ [FailedToValidate e].
Proof.
  intros Hk Hne Hget Hv.
  destruct (ServeHTTP_defer env h hd w) as (Hr & Hd & _ & _ & _ & Hst & Hout).
  rewrite (serve_rejected env h hd w tok w1 e w2) in * by done.
  cbn [fst snd Println delegated stored stdout] in *.
  pose proof (cacheGet_frame tok w) as Hg. rewrite Hget in Hg. cbn in Hg.
  pose proof (validate_frame env h tok w1) as Hf. rewrite Hv in Hf. cbn in Hf.
  destruct Hg as (_ & _ & Hg3 & Hg4 & Hg5 & _).
  destruct Hf as (_ & Hf2 & Hf3 & Hf4 & _).
  repeat split.
  - done.
  - by rewrite Hd, Hf4, Hg5.
  - apply Get_sanitized_status.
  - apply Get_sanitized_projected.
  - by rewrite Hst, Hf2, Hg3.
  - by rewrite Hout, Hf3, Hg4.
Qed.

(** C10: when the cache answers with a record, whatever its validity
    window, [ServeHTTP] takes no clock reading, sends nothing to the
    identity service, and calls the next handler once with
    X-Identity-Status Confirmed and the record projected: each identity
    header is the projected value, or empty where the projection has
    none; a projection that panics leaves them empty and the panic goes
    on after the next handler ran. *)
Theorem ServeHTTP_cache_hit h hd w tok t w1 :
  Header.Get hd "X-Auth-Token" = tok -> tok <> "" ->
  cacheGet tok w = (Some t, w1) ->
  exists final,
    delegated (snd (ServeHTTP env h hd w)) = delegated w ++ [final]
    /\ Header.Get final "X-Identity-Status" = "Confirmed"
    /\ ticks (snd (ServeHTTP env h hd w)) = ticks w
    /\ sent (snd (ServeHTTP env h hd w)) = sent w
    /\ stored (snd (ServeHTTP env h hd w)) = stored w
    /\ match Headers t with
       | Return m =>
           fst (ServeHTTP env h hd w) = Return tt
           /\ forall k, k ∈ projectedNames ->
                Header.Get final k = default "" (m !! k)
       | Panic msg =>
           fst (ServeHTTP env h hd w) = Panic msg
           /\ forall k, k ∈ projectedNames -> Header.Get final k = ""
       end.
Proof.
  intros Hk Hne Hget.
  destruct (ServeHTTP_defer env h hd w) as (Hr & Hd & _ & Hti & Hse & Hst & _).
  rewrite (serve_hit env h hd w tok t w1) in * by done.
  cbn [fst snd Println delegated stored sent ticks] in *.
  pose proof (cacheGet_frame tok w) as Hg. rewrite Hget in Hg. cbn in Hg.
  destruct Hg as (Hg1 & Hg2 & Hg3 & _ & Hg5 & _).
  destruct (confirm_header (sanitized hd) t) as [Hstatus Hproj].
  exists (snd (confirm (sanitized hd) t)).
  split; [by rewrite Hd, Hg5|]. split; [done|].
  split; [by rewrite Hti|]. split; [by rewrite Hse|].
  split; [by rewrite Hst|].
  destruct (Headers t) as [m|msg]; destruct Hproj as [Hfst Hget'];
    (split; [by rewrite Hr|]); intros k Hin; rewrite Hget' by done.
  - destruct (m !! k); [done|]. by apply Get_sanitized_projected.
  - by apply Get_sanitized_projected.
Qed.

(** What [ServeHTTP] adds to the log of cache writes: nothing, or one
    entry under the token of the request for a record [Valid] at the
    first clock reading, with the ttl computed at the second. *)
Lemma ServeHTTP_stored h hd w :
  stored (snd (ServeHTTP env h hd w)) = stored w
  \/ exists t,
       Valid t (time_Now env (ticks w)) = true
       /\ stored (snd (ServeHTTP env h hd w)) =
          stored w ++
            [(Header.Get hd "X-Auth-Token", t,
              Z.min (CacheTime h)
                (Time.Sub (token_ExpiresAt t) (time_Now env (S (ticks w)))))].
Proof.
  destruct (ServeHTTP_defer env h hd w) as (_ & _ & _ & _ & _ & Hst & _).
  rewrite Hst. clear Hst.
  destruct (decide (Header.Get hd "X-Auth-Token" = "")) as [Hk|Hne].
  { rewrite serve_no_token by done. by left. }
  set (tok := Header.Get hd "X-Auth-Token") in *.
  destruct (cacheGet tok w) as [[t|] w1] eqn:Hget;
    pose proof (cacheGet_frame tok w) as Hg; rewrite Hget in Hg; cbn in Hg;
    destruct Hg as (Hg1 & _ & Hg3 & _ & _ & _).
  { rewrite (serve_hit env h hd w tok t w1) by done. by left. }
  destruct (validate env h tok w1) as [[t|e] w2] eqn:Hv;
    pose proof (validate_frame env h tok w1) as Hf; rewrite Hv in Hf;
    cbn in Hf; destruct Hf as (Hf1 & Hf2 & _ & _ & Hf5).
  2:{ rewrite (serve_rejected env h hd w tok w1 e w2) by done.
      left. cbn. by rewrite Hf2. }
  rewrite (serve_validated env h hd w tok w1 t w2) by done. cbn [snd].
  destruct Hf5 as (Hticks & _ & Hvalid).
  destruct (cacheWrite_spec env h tok t w2) as (_ & _ & _ & Hw).
  destruct (TokenCache w2) as [c|].
  - right. exists t. destruct Hw as [_ Hw].
    rewrite Hw, Hf2, Hg3, Hticks, Hg1. by rewrite Hg1 in Hvalid.
  - left. rewrite Hw. by rewrite Hf2.
Qed.

(** C4: every entry [ServeHTTP] writes to the cache has for ttl the
    smaller of [CacheTime] and [ExpiresAt.Sub(time.Now())], at the clock
    reading taken for the write; it is at most that remaining validity,
    also as the plain difference of the two instants wherever that fits
    a Duration from below. *)
Theorem ServeHTTP_cache_ttl h hd w key t ttl :
  stored (snd (ServeHTTP env h hd w)) = stored w ++ [(key, t, ttl)] ->
  ttl = Z.min (CacheTime h)
          (Time.Sub (token_ExpiresAt t) (time_Now env (S (ticks w))))
  /\ ttl <= Time.Sub (token_ExpiresAt t) (time_Now env (S (ticks w)))
  /\ (Time.minDuration <= token_ExpiresAt t - time_Now env (S (ticks w)) ->
      ttl <= token_ExpiresAt t - time_Now env (S (ticks w)))
  /\ key = Header.Get hd "X-Auth-Token"
  /\ Valid t (time_Now env (ticks w)) = true.
Proof.
  intros Hst.
  destruct (ServeHTTP_stored h hd w) as [Hsame|(t' & Hvalid & Hnew)].
  { rewrite Hsame in Hst. apply (f_equal length) in Hst.
    rewrite length_app in Hst. cbn in Hst. lia. }
  rewrite Hnew in Hst. apply app_inv_head in Hst.
  injection Hst as <- <- <-.
  repeat split; try done; [lia|].
  intros Hlow. unfold Time.Sub in *.
  destruct (Z.ltb_spec (token_ExpiresAt t' - time_Now env (S (ticks w)))
              Time.minDuration); [lia|].
  destruct (Z.ltb_spec Time.maxDuration
              (token_ExpiresAt t' - time_Now env (S (ticks w)))); lia.
Qed.

(** C8: a first request finds nothing in the configured cache, validates
    its token and stores the record; a second request with the same
    token, for which the cache answers with that record, sends nothing to
    the identity service, ends as the first did, and hands the next
    handler the same status and identity headers (the same header map
    when the two requests came with the same header). *)
Theorem cache_round_trip h hd1 hd2 wA wB tok t c wA1 wA2 wB1 :
  Header.Get hd1 "X-Auth-Token" = tok -> tok <> "" ->
  TokenCache wA = Some c ->
  cacheGet tok wA = (None, wA1) ->
  validate env h tok wA1 = (Ok t, wA2) ->
  Header.Get hd2 "X-Auth-Token" = tok ->
  cacheGet tok wB = (Some t, wB1) ->
  (exists ttl,
     stored (snd (ServeHTTP env h hd1 wA)) = stored wA ++ [(tok, t, ttl)])
  /\ sent (snd (ServeHTTP env h hd2 wB)) = sent wB
  /\ fst (ServeHTTP env h hd2 wB) = fst (ServeHTTP env h hd1 wA)
  /\ exists f1 f2,
       delegated (snd (ServeHTTP env h hd1 wA)) = delegated wA ++ [f1]
       /\ delegated (snd (ServeHTTP env h hd2 wB)) = delegated wB ++ [f2]
       /\ Header.Get f1 "X-Identity-Status" = "Confirmed"
       /\ Header.Get f2 "X-Identity-Status" = "Confirmed"
       /\ (forall k, k ∈ projectedNames -> Header.Get f2 k = Header.Get f1 k)
       /\ (hd1 = hd2 -> f2 = f1).
Proof.
  intros Hk1 Hne Hc HgetA Hv Hk2 HgetB.
  destruct (ServeHTTP_defer env h hd1 wA) as (HrA & HdA & _ & _ & _ & HstA & _).
  destruct (ServeHTTP_defer env h hd2 wB) as (HrB & HdB & _ & _ & HseB & _ & _).
  rewrite (serve_validated env h hd1 wA tok wA1 t wA2) in * by done.
  rewrite (serve_hit env h hd2 wB tok t wB1) in * by done.
  cbn [fst snd Println delegated stored sent] in *.
  pose proof (cacheGet_frame tok wA) as HgA. rewrite HgetA in HgA.
  cbn in HgA. destruct HgA as (_ & _ & HgA3 & _ & HgA5 & HgA6).
  pose proof (cacheGet_frame tok wB) as HgB. rewrite HgetB in HgB.
  cbn in HgB. destruct HgB as (_ & HgB2 & _ & _ & HgB5 & _).
  pose proof (validate_frame env h tok wA1) as Hf. rewrite Hv in Hf.
  cbn in Hf. destruct Hf as (Hf1 & Hf2 & _ & Hf4 & _).
  destruct (cacheWrite_spec env h tok t wA2) as (_ & _ & Hw3 & Hw).
  assert (is_Some (TokenCache wA2)) as [c2 Hc2].
  { rewrite Hf1. apply HgA6. rewrite Hc. eauto. }
  rewrite Hc2 in Hw. destruct Hw as [_ Hw].
  split; [eexists; by rewrite HstA, Hw, Hf2, HgA3|].
  split; [by rewrite HseB|].
  split; [rewrite HrA, HrB; unfold confirm; by destruct (Headers t)|].
  exists (snd (confirm (sanitized hd1) t)), (snd (confirm (sanitized hd2) t)).
  split; [by rewrite HdA, Hw3, Hf4, HgA5|].
  split; [by rewrite HdB, HgB5|].
  destruct (confirm_header (sanitized hd1) t) as [Hs1 Hp1].
  destruct (confirm_header (sanitized hd2) t) as [Hs2 Hp2].
  split; [done|]. split; [done|]. split; [|by intros ->].
  intros k Hin.
  destruct (Headers t) as [m|msg]; destruct Hp1 as [_ Hp1];
    destruct Hp2 as [_ Hp2]; rewrite Hp1, Hp2 by done.
  - destruct (m !! k); [done|]. by rewrite !Get_sanitized_projected.
  - by rewrite !Get_sanitized_projected.
Qed.

End GateTheorems.

(** ** The handler on the example requests *)

Lemma ServeHTTP_validation_failure_witness :
  fst (ServeHTTP Examples.answers401 Examples.auth Examples.withToken
         Examples.noCache) = Return tt
  /\ delegated (snd (ServeHTTP Examples.answers401 Examples.auth
                       Examples.withToken Examples.noCache))
     = [sanitized Examples.withToken]
  /\ Header.Get (sanitized Examples.withToken) "X-Identity-Status" = "Invalid".
Proof.
  destruct (ServeHTTP_validation_failure Examples.answers401 Examples.auth
              Examples.withToken Examples.noCache "1234" Examples.noCache
              "401 Unauthorized"
              (snd (validate Examples.answers401 Examples.auth "1234"
                      Examples.noCache))
              eq_refl ltac:(discriminate) eq_refl eq_refl)
    as (Hr & Hd & Hs & _).
  split; [exact Hr | split; [exact Hd | exact Hs]].
Defined.

Lemma ServeHTTP_cache_hit_witness :
  Valid Examples.expired (Examples.clock 0) = false
  /\ exists final,
       delegated (snd (ServeHTTP Examples.answers401 Examples.auth
                         Examples.withToken Examples.staleCache)) = [final]
       /\ Header.Get final "X-Identity-Status" = "Confirmed"
       /\ Header.Get final "X-User-Name" = "arc".
Proof.
  split; [reflexivity|].
  destruct (ServeHTTP_cache_hit Examples.answers401 Examples.auth
              Examples.withToken Examples.staleCache "1234" Examples.expired
              Examples.staleCache eq_refl ltac:(discriminate) eq_refl)
    as (final & Hd & Hs & _ & _ & _ & _ & Hp).
  exists final. split; [exact Hd | split; [exact Hs|]].
  apply (Hp "X-User-Name"). apply list_elem_of_further, list_elem_of_here.
Defined.

Lemma ServeHTTP_cache_ttl_witness :
  stored (snd (ServeHTTP Examples.answersProject Examples.auth
                 Examples.withToken Examples.freshCache))
  = [("1234", Examples.projectScoped, 300000000000)]
  /\ 300000000000
     <= Time.Sub (token_ExpiresAt Examples.projectScoped) (Examples.clock 1).
Proof.
  assert (stored (snd (ServeHTTP Examples.answersProject Examples.auth
                         Examples.withToken Examples.freshCache))
          = stored Examples.freshCache
              ++ [("1234", Examples.projectScoped, 300000000000)]) as Hst
    by (vm_compute; reflexivity).
  split; [exact Hst|].
  exact (proj1 (proj2 (ServeHTTP_cache_ttl Examples.answersProject Examples.auth
                         Examples.withToken Examples.freshCache "1234"
                         Examples.projectScoped 300000000000 Hst))).
Defined.

Lemma cache_round_trip_witness :
  sent (snd (ServeHTTP Examples.answersProject Examples.auth Examples.withToken
               Examples.afterFirst))
  = sent Examples.afterFirst
  /\ fst (ServeHTTP Examples.answersProject Examples.auth Examples.withToken
            Examples.afterFirst)
     = fst (ServeHTTP Examples.answersProject Examples.auth Examples.withToken
              Examples.freshCache).
Proof.
  assert (validate Examples.answersProject Examples.auth "1234"
            Examples.freshCache
          = (Ok Examples.projectScoped,
             snd (validate Examples.answersProject Examples.auth "1234"
                    Examples.freshCache))) as Hv
    by (vm_compute; reflexivity).
  assert (cacheGet "1234" Examples.afterFirst
          = (Some Examples.projectScoped, Examples.afterFirst)) as Hget
    by (vm_compute; reflexivity).
  destruct (cache_round_trip Examples.answersProject Examples.auth
              Examples.withToken Examples.withToken Examples.freshCache
              Examples.afterFirst "1234" Examples.projectScoped ∅
              Examples.freshCache _ Examples.afterFirst
              eq_refl ltac:(discriminate) eq_refl eq_refl Hv eq_refl Hget)
    as (_ & Hsent & Hsame & _).
  split; [exact Hsent | exact Hsame].
Defined.

(** C1: a request without token that carries X-Service-Catalog reaches the
    next handler marked Invalid with that header still in place, while the
    spoofed X-Project-Id is gone: the name [filterIncomingHeaders] deletes
    is X-Servie-Catalog. *)
Theorem ServeHTTP_keeps_service_catalog :
  exists final,
    delegated (snd (ServeHTTP Examples.answers401 Examples.auth Examples.spoofed
                      Examples.noCache)) = [final]
    /\ Header.Get final "X-Identity-Status" = "Invalid"
    /\ Header.Get final "X-Project-Id" = ""
    /\ Header.Get Examples.spoofed "X-Service-Catalog" = "[]"
    /\ Header.Get final "X-Service-Catalog" = "[]".
Proof.
  exists (sanitized Examples.spoofed).
  split; [vm_compute; reflexivity|].
  split; [vm_compute; reflexivity|].
  split; [vm_compute; reflexivity|].
  split; vm_compute; reflexivity.
Qed.

(** The names the sanitizer does remove. *)
Lemma sanitized_removes (hd : Header.t) (k : string) :
  k ∈ filteredNames -> k <> "X-Identity-Status" ->
  Header.Get (sanitized hd) k = "".
Proof.
  intros Hk Hne. unfold sanitized. rewrite Get_Set_ne.
  - by apply Get_filterIncomingHeaders.
  - rewrite (proj1 (Forall_forall _ _) filteredNames_canonical k Hk). done.
Qed.

Example project_scoped_request :
  Header.Get (snd (confirm (sanitized Examples.withToken) Examples.projectScoped))
  <$> [ "X-Identity-Status"; "X-Project-Domain-Name"; "X-Roles"; "X-Domain-Id" ]
  = [ "Confirmed"; "testdomain"; "member"; "" ].
Proof. vm_compute. reflexivity. Qed.

Example bare_project_request :
  fst (ServeHTTP (Examples.service Examples.ok200
                    (Examples.envelope Examples.bareToken))
         Examples.auth Examples.withToken Examples.noCache)
  = Panic nilDereference.
Proof. vm_compute. reflexivity. Qed.

(** ** More on the sanitizer *)

(** X1: filtering a header that was already filtered changes nothing. *)
Theorem filterIncomingHeaders_idempotent (hd : Header.t) :
  filterIncomingHeaders (filterIncomingHeaders hd) = filterIncomingHeaders hd.
Proof.
  apply map_eq. intros k. rewrite !lookup_filterIncomingHeaders.
  by case_decide.
Qed.

(** X2: a header whose canonical name is not one of the names deleted reads
    the same before and after the filter, under any spelling of its key. *)
Theorem filterIncomingHeaders_keeps_others (hd : Header.t) (key : string) :
  Textproto.CanonicalMIMEHeaderKey key ∉ filteredNames ->
  Header.Get (filterIncomingHeaders hd) key = Header.Get hd key.
Proof.
  intros Hout. unfold Header.Get. rewrite lookup_filterIncomingHeaders.
  by rewrite decide_False.
Qed.

Lemma filterIncomingHeaders_keeps_others_witness :
  Header.Get (filterIncomingHeaders Examples.withToken) "x-auth-token"
  = Header.Get Examples.withToken "x-auth-token".
Proof.
  apply (filterIncomingHeaders_keeps_others Examples.withToken "x-auth-token").
  compute_done.
Defined.

(** X3: sanitizing twice is sanitizing once. *)
Theorem sanitized_idempotent (hd : Header.t) :
  sanitized (sanitized hd) = sanitized hd.
Proof.
  unfold sanitized, Header.Set_. apply map_eq. intros k.
  destruct (decide (k = Textproto.CanonicalMIMEHeaderKey "X-Identity-Status"))
    as [->|Hne].
  - by rewrite !lookup_insert_eq.
  - rewrite !lookup_insert_ne by done.
    rewrite !lookup_filterIncomingHeaders.
    case_decide; [done|]. rewrite lookup_insert_ne by done.
    rewrite lookup_filterIncomingHeaders. by rewrite decide_False.
Qed.

(** ** Handler *)

(** X4: after [Handler] the cache time is not zero and the user agent is
    not empty; a cache time or user agent that was set is kept, the
    endpoint is kept, and applying [Handler] again changes nothing. *)
Theorem Handler_defaults (a : Auth) :
  CacheTime (Handler a) <> 0
  /\ UserAgent (Handler a) <> ""
  /\ Endpoint (Handler a) = Endpoint a
  /\ CacheTime (Handler a)
     = (if decide (CacheTime a = 0) then 300000000000 else CacheTime a)
  /\ UserAgent (Handler a)
     = (if decide (UserAgent a = "") then "go-keystone-middleware/1.0"
        else UserAgent a)
  /\ Handler (Handler a) = Handler a.
Proof.
  unfold Handler. destruct a as [ep ua ct]. cbn.
  repeat (case_decide; cbn in *; subst); repeat split;
    try done; try (unfold Time.Minute, Time.Second in *; lia).
Qed.

(** ** The validity window *)

(** X5: a token [Valid] accepts has not expired at the clock reading, was
    issued less than a second after it, and expires after it was issued. *)
Theorem Valid_not_expired (t : token) (now : Time.t) :
  Valid t now = true ->
  now < token_ExpiresAt t
  /\ token_IssuedAt t < now + Time.Second
  /\ token_IssuedAt t < token_ExpiresAt t.
Proof.
  intros Hv. apply Valid_spec in Hv. unfold Time.Unix, Time.Second in *.
  pose proof (Z.div_mod (token_IssuedAt t) 1000000000 ltac:(lia)).
  pose proof (Z.div_mod now 1000000000 ltac:(lia)).
  pose proof (Z.div_mod (token_ExpiresAt t) 1000000000 ltac:(lia)).
  pose proof (Z.mod_pos_bound (token_IssuedAt t) 1000000000 ltac:(lia)).
  pose proof (Z.mod_pos_bound now 1000000000 ltac:(lia)).
  pose proof (Z.mod_pos_bound (token_ExpiresAt t) 1000000000 ltac:(lia)).
  lia.
Qed.

Lemma Valid_not_expired_witness :
  Examples.clock 0 < token_ExpiresAt Examples.projectScoped.
Proof.
  exact (proj1 (Valid_not_expired Examples.projectScoped (Examples.clock 0)
                  eq_refl)).
Defined.

(** X6: for a token issued and expiring on whole seconds, [Valid] is
    exactly issuedAt <= now < expiresAt. *)
Theorem Valid_whole_seconds (t : token) (now : Time.t) (i e : Z) :
  token_IssuedAt t = i * Time.Second ->
  token_ExpiresAt t = e * Time.Second ->
  Valid t now = true <-> token_IssuedAt t <= now < token_ExpiresAt t.
Proof.
  intros Hi He. rewrite Valid_spec, Hi, He. unfold Time.Unix, Time.Second.
  rewrite !Z.div_mul by lia.
  pose proof (Z.div_mod now 1000000000 ltac:(lia)).
  pose proof (Z.mod_pos_bound now 1000000000 ltac:(lia)).
  lia.
Qed.

Lemma Valid_whole_seconds_witness :
  Valid Examples.expired (Examples.clock 0) = true
  <-> token_IssuedAt Examples.expired <= Examples.clock 0
      < token_ExpiresAt Examples.expired.
Proof.
  exact (Valid_whole_seconds Examples.expired (Examples.clock 0) 0 1
           eq_refl eq_refl).
Defined.

(** X7: the clock readings at which a token is [Valid] form an interval. *)
Theorem Valid_interval (t : token) (a b now : Time.t) :
  Valid t a = true -> Valid t b = true -> a <= now <= b ->
  Valid t now = true.
Proof.
  rewrite !Valid_spec. unfold Time.Unix, Time.Second. intros Ha Hb Hab.
  assert (a / 1000000000 <= now / 1000000000) by (apply Z.div_le_mono; lia).
  assert (now / 1000000000 <= b / 1000000000) by (apply Z.div_le_mono; lia).
  lia.
Qed.

Lemma Valid_interval_witness :
  Valid Examples.projectScoped (Examples.clock 1) = true.
Proof.
  apply (Valid_interval Examples.projectScoped (Examples.clock 0)
           (Examples.clock 2) (Examples.clock 1)); [reflexivity | reflexivity |].
  unfold Examples.clock, Time.Second. lia.
Defined.

(** ** More on the header projection *)

Ltac lookup_inserts :=
  repeat first
    [ rewrite lookup_insert_eq
    | rewrite lookup_insert_ne by discriminate
    | rewrite lookup_empty ].

(** X8: a projection that returns always carries the four user headers,
    read from the user's id, name, [domain_id] and embedded domain name. *)
Theorem Headers_user (t : token) (m : gmap string string) :
  Headers t = Return m ->
  m !! "X-User-Id" = Some (user_ID (token_User t))
  /\ m !! "X-User-Name" = Some (user_Name (token_User t))
  /\ m !! "X-User-Domain-Id" = Some (user_DomainID (token_User t))
  /\ m !! "X-User-Domain-Name"
     = Some (userDomain_Name (user_Domain (token_User t))).
Proof.
  unfold Headers. intros Hm.
  destruct (token_Project t) as [p|]; [destruct (project_Domain p); [|done]|];
    destruct (token_Domain t), (token_Roles t);
    injection Hm as <-; repeat split; by lookup_inserts.
Qed.

Lemma Headers_user_witness :
  exists m, Headers Examples.unscoped = Return m
            /\ m !! "X-User-Name" = Some "arc".
Proof.
  eexists. split; [reflexivity|].
  exact (proj1 (proj2 (Headers_user Examples.unscoped _ eq_refl))).
Defined.

(** X9: in a projection that returns, the project id and name headers are
    there exactly when the token has a project, and the domain id and name
    headers exactly when it has a domain, with the values of that project
    or domain. *)
Theorem Headers_scopes (t : token) (m : gmap string string) :
  Headers t = Return m ->
  m !! "X-Project-Id" = project_ID <$> token_Project t
  /\ m !! "X-Project-Name" = project_Name <$> token_Project t
  /\ m !! "X-Project-Domain-Id" = project_DomainID <$> token_Project t
  /\ (is_Some (m !! "X-Project-Domain-Name") <-> is_Some (token_Project t))
  /\ m !! "X-Domain-Id" = domain_ID <$> token_Domain t
  /\ m !! "X-Domain-Name" = domain_Name <$> token_Domain t.
Proof.
  unfold Headers. intros Hm.
  assert (forall A, ~ is_Some (@None A)) as Hnone
    by (intros A [? ?]; discriminate).
  destruct (token_Project t) as [p|]; [destruct (project_Domain p); [|done]|];
    destruct (token_Domain t), (token_Roles t);
    injection Hm as <-; cbn [fmap option_fmap option_map];
    repeat split; lookup_inserts; try done; eauto;
    intros H; by apply Hnone in H.
Qed.

Lemma Headers_scopes_witness :
  exists m, Headers Examples.domainScoped = Return m
            /\ m !! "X-Project-Id" = None
            /\ m !! "X-Domain-Id" = Some "o-testdomain".
Proof.
  eexists. split; [reflexivity|].
  destruct (Headers_scopes Examples.domainScoped _ eq_refl)
    as (Hp & _ & _ & _ & Hd & _).
  split; [exact Hp | exact Hd].
Defined.

(** X10: a projection that returns has four entries for the user, four
    more for a project, two more for a domain and one more for a non-nil
    role list, and nothing else: an unscoped token without roles yields
    exactly the four user headers. *)
Theorem Headers_size (t : token) (m : gmap string string) :
  Headers t = Return m ->
  size m = (4 + match token_Project t with Some _ => 4 | None => 0 end
            + match token_Domain t with Some _ => 2 | None => 0 end
            + match token_Roles t with Some _ => 1 | None => 0 end)%nat.
Proof.
  unfold Headers. intros Hm.
  destruct (token_Project t) as [p|]; [destruct (project_Domain p); [|done]|];
    destruct (token_Domain t), (token_Roles t);
    injection Hm as <-;
    repeat (rewrite map_size_insert_None by by lookup_inserts);
    by rewrite map_size_empty.
Qed.

Lemma Headers_size_witness :
  exists m, Headers Examples.unscoped = Return m /\ size m = 4%nat.
Proof.
  eexists. split; [reflexivity|].
  exact (Headers_size Examples.unscoped _ eq_refl).
Defined.

(** ** More on the validator *)

Section ValidateMore.

Context {C : Type} `{!Cache C}.
Variable env : Env.
Implicit Types (w : World C) (h : Auth) (tok : string).

Lemma validate_sent h tok w :
  url_Parse env (Endpoint h +:+ "/auth/tokens?nocatalog") = None ->
  sent (snd (validate env h tok w)) = sent w ++ [validationRequest h tok].
Proof.
  intros Hurl. unfold validate, NewRequest. rewrite Hurl.
  change (setHeader _ "User-Agent" (UserAgent h))
    with (validationRequest h tok).
  unfold bind, Do.
  destruct (client_Do env _ _) as [r|e]; [|done].
  destruct (400 <=? StatusCode r); [done|].
  destruct (json_Decode env _) as [resp|e]; [|done].
  destruct (authResponse_Error resp); [done|].
  destruct (negb (StatusCode r =? 200)); [done|].
  destruct (authResponse_Token resp) as [t|]; [|done].
  unfold Now. cbn [ticks sent]. by destruct (Valid t _).
Qed.

Lemma validate_ticks h tok w :
  ticks (snd (validate env h tok w)) = ticks w
  \/ ticks (snd (validate env h tok w)) = S (ticks w).
Proof.
  unfold validate, NewRequest.
  destruct (url_Parse env _); [cbn; tauto|].
  unfold bind, Do.
  destruct (client_Do env _ _) as [r|e]; [|cbn; tauto].
  destruct (400 <=? StatusCode r); [cbn; tauto|].
  destruct (json_Decode env _) as [resp|e]; [|cbn; tauto].
  destruct (authResponse_Error resp); [cbn; tauto|].
  destruct (negb (StatusCode r =? 200)); [cbn; tauto|].
  destruct (authResponse_Token resp) as [t|]; [|cbn; tauto].
  unfold Now. cbn [ticks]. destruct (Valid t _); cbn; tauto.
Qed.

(** X11: when the URL parses, [validate] sends exactly one request: a GET
    to the endpoint followed by /auth/tokens?nocatalog whose X-Auth-Token
    and X-Subject-Token are both the token, whose User-Agent is the
    configured one, and which has no other header. *)
Theorem validate_sends_one_request h tok w :
  url_Parse env (Endpoint h +:+ "/auth/tokens?nocatalog") = None ->
  exists req,
    sent (snd (validate env h tok w)) = sent w ++ [req]
    /\ Request_Method req = "GET"
    /\ Request_URL req = Endpoint h +:+ "/auth/tokens?nocatalog"
    /\ Header.Get (Request_Header req) "X-Auth-Token" = tok
    /\ Header.Get (Request_Header req) "X-Subject-Token" = tok
    /\ Header.Get (Request_Header req) "User-Agent" = UserAgent h
    /\ size (Request_Header req) = 3%nat.
Proof.
  intros Hurl. exists (validationRequest h tok). split.
  - by apply validate_sent.
  - unfold validationRequest, Header.Get, Header.Set_.
    cbn [Request_Method Request_URL Request_Header].
    change (Textproto.CanonicalMIMEHeaderKey "X-Auth-Token")
      with "X-Auth-Token".
    change (Textproto.CanonicalMIMEHeaderKey "X-Subject-Token")
      with "X-Subject-Token".
    change (Textproto.CanonicalMIMEHeaderKey "User-Agent") with "User-Agent".
    split; [reflexivity|]. split; [reflexivity|].
    split; [rewrite !lookup_insert_ne by discriminate;
            by rewrite lookup_insert_eq|].
    split; [rewrite lookup_insert_ne by discriminate;
            by rewrite lookup_insert_eq|].
    split; [by rewrite lookup_insert_eq|].
    rewrite !map_size_insert_None; [by rewrite map_size_empty|..].
    + apply lookup_empty.
    + rewrite lookup_insert_ne by discriminate. apply lookup_empty.
    + rewrite !lookup_insert_ne by discriminate. apply lookup_empty.
Qed.

(** X12: when the URL does not parse, [validate] returns that error and
    leaves the world as it was: nothing is sent and no clock is read. *)
Theorem validate_bad_url h tok w err :
  url_Parse env (Endpoint h +:+ "/auth/tokens?nocatalog") = Some err ->
  validate env h tok w = (Err err, w).
Proof. intros Hurl. unfold validate, NewRequest. by rewrite Hurl. Qed.

(** X13: an answer with status 400 or more is rejected with its status
    line as the error, whatever its body holds, and without a clock
    reading. *)
Theorem validate_status_400 h tok w r :
  url_Parse env (Endpoint h +:+ "/auth/tokens?nocatalog") = None ->
  client_Do env (length (sent w)) (validationRequest h tok) = Ok r ->
  400 <= StatusCode r ->
  fst (validate env h tok w) = Err (Status r)
  /\ ticks (snd (validate env h tok w)) = ticks w.
Proof.
  intros Hurl Hdo Hs. unfold validate, NewRequest. rewrite Hurl.
  change (setHeader _ "User-Agent" (UserAgent h))
    with (validationRequest h tok).
  unfold bind, Do. rewrite Hdo.
  destruct (Z.leb_spec 400 (StatusCode r)); [done | lia].
Qed.

(** X14: below 400, an envelope with an error object is rejected with the
    status line and the message of that object, also when the status is
    200 and the envelope holds a token; no clock is read. *)
Theorem validate_error_object h tok w r resp e :
  url_Parse env (Endpoint h +:+ "/auth/tokens?nocatalog") = None ->
  client_Do env (length (sent w)) (validationRequest h tok) = Ok r ->
  StatusCode r < 400 ->
  json_Decode env (Body r) = Ok resp ->
  authResponse_Error resp = Some e ->
  fst (validate env h tok w) = Err (Status r +:+ " : " +:+ error_Message e)
  /\ ticks (snd (validate env h tok w)) = ticks w.
Proof.
  intros Hurl Hdo Hs Hdec He. unfold validate, NewRequest. rewrite Hurl.
  change (setHeader _ "User-Agent" (UserAgent h))
    with (validationRequest h tok).
  unfold bind, Do. rewrite Hdo.
  destruct (Z.leb_spec 400 (StatusCode r)); [lia|].
  by rewrite Hdec, He.
Qed.

(** X15: [validate] reads the clock at most once, and an accepted token
    was read from a 200 answer and is [Valid] at that one reading. *)
Theorem validate_clock h tok w :
  (ticks (snd (validate env h tok w)) = ticks w
   \/ ticks (snd (validate env h tok w)) = S (ticks w))
  /\ forall t, fst (validate env h tok w) = Ok t ->
       ticks (snd (validate env h tok w)) = S (ticks w)
       /\ Valid t (time_Now env (ticks w)) = true
       /\ exists r,
            client_Do env (length (sent w)) (validationRequest h tok) = Ok r
            /\ StatusCode r = 200.
Proof.
  unfold validate, NewRequest.
  destruct (url_Parse env _); [cbn; split; [tauto | discriminate]|].
  change (setHeader _ "User-Agent" (UserAgent h))
    with (validationRequest h tok).
  unfold bind, Do.
  destruct (client_Do env _ _) as [r|e]; [|cbn; split; [tauto | discriminate]].
  destruct (400 <=? StatusCode r); [cbn; split; [tauto | discriminate]|].
  destruct (json_Decode env _) as [resp|e];
    [|cbn; split; [tauto | discriminate]].
  destruct (authResponse_Error resp); [cbn; split; [tauto | discriminate]|].
  destruct (Z.eqb_spec (StatusCode r) 200) as [H200|H200]; cbn [negb];
    [|cbn; split; [tauto | discriminate]].
  destruct (authResponse_Token resp) as [t|];
    [|cbn; split; [tauto | discriminate]].
  unfold Now. cbn [ticks].
  destruct (Valid t _) eqn:Hv; cbn; (split; [tauto|]); [|discriminate].
  intros t' [= <-]. eauto.
Qed.

End ValidateMore.

(** ** More on the handler *)

Lemma Headers_panic_message (t : token) (msg : string) :
  Headers t = Panic msg ->
  msg = nilDereference
  /\ exists p, token_Project t = Some p /\ project_Domain p = None.
Proof.
  unfold Headers. intros Hp.
  destruct (token_Project t) as [p|]; [|done].
  destruct (project_Domain p) eqn:Hd; [done|].
  injection Hp as <-. eauto.
Qed.

(** What [confirm] does to the raw header map outside the filtered names. *)
Lemma lookup_confirm_other (hd : Header.t) (t : token) (k : string) :
  k ∉ filteredNames ->
  snd (confirm hd t) !! k = hd !! k.
Proof.
  intros Hk.
  assert (k <> Textproto.CanonicalMIMEHeaderKey "X-Identity-Status") as Hst.
  { intros ->. apply Hk. compute_done. }
  unfold confirm. destruct (Headers t) as [m|msg] eqn:Hm; cbn [snd].
  - rewrite (lookup_setAll t) by done.
    destruct (m !! k) as [v|] eqn:Hv.
    + exfalso. apply Hk, projectedNames_are_filtered.
      eapply Headers_keys; eauto.
    + unfold Header.Set_. by rewrite lookup_insert_ne.
  - unfold Header.Set_. by rewrite lookup_insert_ne.
Qed.

Lemma lookup_sanitized_other (hd : Header.t) (k : string) :
  k ∉ filteredNames -> sanitized hd !! k = hd !! k.
Proof.
  intros Hk.
  assert (k <> Textproto.CanonicalMIMEHeaderKey "X-Identity-Status") as Hst.
  { intros ->. apply Hk. compute_done. }
  unfold sanitized, Header.Set_. rewrite lookup_insert_ne by done.
  rewrite lookup_filterIncomingHeaders. by rewrite decide_False.
Qed.

(** The names of the filter that the projection never assigns read empty
    after [confirm] when they did before. *)
Lemma Get_confirm_unprojected (hd : Header.t) (t : token) (k : string) :
  k ∈ filteredNames -> k ∉ projectedNames -> k <> "X-Identity-Status" ->
  Header.Get (snd (confirm hd t)) k = Header.Get hd k.
Proof.
  intros Hf Hp Hne.
  assert (Textproto.CanonicalMIMEHeaderKey k = k) as Hcan
    by exact (proj1 (Forall_forall _ _) filteredNames_canonical k Hf).
  unfold Header.Get. rewrite Hcan.
  unfold confirm. destruct (Headers t) as [m|msg] eqn:Hm; cbn [snd].
  - rewrite (lookup_setAll t) by done.
    destruct (m !! k) as [v|] eqn:Hv.
    + exfalso. apply Hp. eapply Headers_keys; eauto.
    + unfold Header.Set_. by rewrite lookup_insert_ne.
  - unfold Header.Set_. by rewrite lookup_insert_ne.
Qed.

Section HandlerMore.

Context {C : Type} `{!Cache C}.
Variable env : Env.
Implicit Types (w : World C) (h : Auth) (hd : Header.t) (tok : string).

Lemma cacheWrite_cache h tok t w :
  TokenCache (snd (cacheWrite env h tok t w))
  = (fun c =>
       Cache_Set c tok t
         (Z.min (CacheTime h)
            (Time.Sub (token_ExpiresAt t) (time_Now env (ticks w)))))
    <$> TokenCache w.
Proof.
  unfold cacheWrite, bind, hasCache, Now, cacheSet.
  destruct (TokenCache w) as [c|] eqn:Hc.
  - rewrite bool_decide_eq_true_2 by eauto. cbn. rewrite Hc. cbn.
    by rewrite ttl_min.
  - rewrite bool_decide_eq_false_2 by (intros [? ?]; discriminate).
    cbn. by rewrite Hc.
Qed.

(** Every run ends in one of two ways: the body returned on the sanitized
    header, or it reached [confirm] with a record. *)
Lemma ServeHTTP_outcome h hd w :
  exists final,
    delegated (snd (ServeHTTP env h hd w)) = delegated w ++ [final]
    /\ ((fst (ServeHTTP env h hd w) = Return tt /\ final = sanitized hd)
        \/ exists t,
             Header.Get hd "X-Auth-Token" <> ""
             /\ (fst (ServeHTTP env h hd w), final)
                = confirm (sanitized hd) t).
Proof.
  destruct (ServeHTTP_defer env h hd w) as (Hr & Hd & _).
  rewrite Hr, Hd. clear Hr Hd.
  destruct (decide (Header.Get hd "X-Auth-Token" = "")) as [Hk|Hne].
  { rewrite serve_no_token by done. cbn. eauto. }
  set (tok := Header.Get hd "X-Auth-Token") in *.
  destruct (cacheGet tok w) as [[t|] w1] eqn:Hget;
    pose proof (cacheGet_frame tok w) as Hg; rewrite Hget in Hg; cbn in Hg;
    destruct Hg as (_ & _ & _ & _ & Hg5 & _).
  { rewrite (serve_hit env h hd w tok t w1) by done. cbn [fst snd Println delegated].
    rewrite Hg5. eexists. split; [done|]. right. exists t.
    split; [done|]. by destruct (confirm (sanitized hd) t). }
  destruct (validate env h tok w1) as [[t|e] w2] eqn:Hv;
    pose proof (validate_frame env h tok w1) as Hf; rewrite Hv in Hf;
    cbn in Hf; destruct Hf as (_ & _ & _ & Hf4 & _).
  - rewrite (serve_validated env h hd w tok w1 t w2) by done. cbn [fst snd].
    destruct (cacheWrite_spec env h tok t w2) as (_ & _ & Hw3 & _).
    rewrite Hw3, Hf4, Hg5. eexists. split; [done|]. right. exists t.
    split; [done|]. by destruct (confirm (sanitized hd) t).
  - rewrite (serve_rejected env h hd w tok w1 e w2) by done.
    cbn [fst snd Println delegated]. rewrite Hf4, Hg5. eauto.
Qed.

(** X16: a request without token goes to the next handler once, marked
    Invalid and without identity headers; the cache is not consulted,
    nothing is sent, printed or stored and no clock is read. *)
Theorem ServeHTTP_no_token h hd w :
  Header.Get hd "X-Auth-Token" = "" ->
  fst (ServeHTTP env h hd w) = Return tt
  /\ delegated (snd (ServeHTTP env h hd w)) = delegated w ++ [sanitized hd]
  /\ Header.Get (sanitized hd) "X-Identity-Status" = "Invalid"
  /\ (forall k, k ∈ projectedNames -> Header.Get (sanitized hd) k = "")
  /\ TokenCache (snd (ServeHTTP env h hd w)) = TokenCache w
  /\ ticks (snd (ServeHTTP env h hd w)) = ticks w
  /\ sent (snd (ServeHTTP env h hd w)) = sent w
  /\ stored (snd (ServeHTTP env h hd w)) = stored w
  /\ stdout (snd (ServeHTTP env h hd w)) = stdout w.
Proof.
  intros Hk.
  destruct (ServeHTTP_defer env h hd w) as (Hr & Hd & Hc & Ht & Hs & Hst & Ho).
  rewrite serve_no_token in * by done. cbn [fst snd] in *.
  split; [done|]. split; [done|].
  split; [apply Get_sanitized_status|].
  split; [apply Get_sanitized_projected|]. done.
Qed.

(** X17: on every path the next handler is called exactly once, with
    X-Identity-Status either Invalid or Confirmed, and Confirmed only for
    a request that carried a token. *)
Theorem ServeHTTP_status h hd w :
  exists final,
    delegated (snd (ServeHTTP env h hd w)) = delegated w ++ [final]
    /\ (Header.Get final "X-Identity-Status" = "Invalid"
        \/ (Header.Get final "X-Identity-Status" = "Confirmed"
            /\ Header.Get hd "X-Auth-Token" <> "")).
Proof.
  destruct (ServeHTTP_outcome h hd w) as (final & Hd & [[_ ->]|(t & Hne & Hc)]).
  - eexists. split; [done|]. left. apply Get_sanitized_status.
  - exists final. split; [done|]. right. split; [|done].
    destruct (confirm_header (sanitized hd) t) as [Hs _].
    by rewrite <- Hc in Hs.
Qed.

(** X18: the handler never touches a header outside the names it filters:
    whatever the path, such an entry of the request reaches the next
    handler as it came (the token header among them). *)
Theorem ServeHTTP_keeps_other_headers h hd w k :
  k ∉ filteredNames ->
  exists final,
    delegated (snd (ServeHTTP env h hd w)) = delegated w ++ [final]
    /\ final !! k = hd !! k.
Proof.
  intros Hk.
  destruct (ServeHTTP_outcome h hd w) as (final & Hd & [[_ ->]|(t & _ & Hc)]).
  - eexists. split; [done|]. by apply lookup_sanitized_other.
  - exists final. split; [done|].
    assert (final = snd (confirm (sanitized hd) t)) as -> by by rewrite <- Hc.
    rewrite lookup_confirm_other by done. by apply lookup_sanitized_other.
Qed.

(** X19: the filtered names that the projection never assigns (the
    X-Service-* headers, X-Servie-Catalog and the deprecated aliases) read
    empty at the next handler on every path, the confirmed one included. *)
Theorem ServeHTTP_unprojected_names_empty h hd w k :
  k ∈ filteredNames -> k ∉ projectedNames -> k <> "X-Identity-Status" ->
  exists final,
    delegated (snd (ServeHTTP env h hd w)) = delegated w ++ [final]
    /\ Header.Get final k = "".
Proof.
  intros Hf Hp Hne.
  assert (Header.Get (sanitized hd) k = "") as Hs.
  { unfold sanitized. rewrite Get_Set_ne.
    - by apply Get_filterIncomingHeaders.
    - rewrite (proj1 (Forall_forall _ _) filteredNames_canonical k Hf). done. }
  destruct (ServeHTTP_outcome h hd w) as (final & Hd & [[_ ->]|(t & _ & Hc)]).
  - eexists. split; done.
  - exists final. split; [done|].
    assert (final = snd (confirm (sanitized hd) t)) as -> by by rewrite <- Hc.
    by rewrite Get_confirm_unprojected.
Qed.

(** X20: the handler panics only with the nil dereference of [Headers],
    and then the next handler has already been called, with
    X-Identity-Status Confirmed and every identity header empty. *)
Theorem ServeHTTP_panic h hd w msg :
  fst (ServeHTTP env h hd w) = Panic msg ->
  msg = nilDereference
  /\ exists final,
       delegated (snd (ServeHTTP env h hd w)) = delegated w ++ [final]
       /\ Header.Get final "X-Identity-Status" = "Confirmed"
       /\ forall k, k ∈ projectedNames -> Header.Get final k = "".
Proof.
  intros Hp.
  destruct (ServeHTTP_outcome h hd w) as (final & Hd & [[Hr _]|(t & _ & Hc)]).
  { rewrite Hr in Hp. discriminate. }
  destruct (confirm_header (sanitized hd) t) as [Hs Hm].
  rewrite <- Hc in Hs, Hm. cbn [fst snd] in Hs, Hm.
  destruct (Headers t) as [m|msg'] eqn:Ht; destruct Hm as [Hfst Hget].
  { rewrite Hfst in Hp. discriminate. }
  rewrite Hfst in Hp. injection Hp as ->.
  split; [by apply (Headers_panic_message t)|].
  exists final. split; [done|]. split; [done|].
  intros k Hk. rewrite Hget by done. by apply Get_sanitized_projected.
Qed.

End HandlerMore.

Section HandlerPaths.

Context {C : Type} `{!Cache C}.
Variable env : Env.
Implicit Types (w : World C) (h : Auth) (hd : Header.t) (tok : string).

(** X21: after a cache miss and a successful validation the next handler
    is called with X-Identity-Status Confirmed and each identity header set
    to the value projected from the validated record, or empty where the
    projection has none, whatever the request carried under those names;
    one request was sent and nothing printed. *)
Theorem ServeHTTP_validated h hd w tok w1 t w2 :
  Header.Get hd "X-Auth-Token" = tok -> tok <> "" ->
  cacheGet tok w = (None, w1) ->
  validate env h tok w1 = (Ok t, w2) ->
  exists final,
    delegated (snd (ServeHTTP env h hd w)) = delegated w ++ [final]
    /\ Header.Get final "X-Identity-Status" = "Confirmed"
    /\ sent (snd (ServeHTTP env h hd w)) = sent w ++ [validationRequest h tok]
    /\ stdout (snd (ServeHTTP env h hd w)) = stdout w
    /\ match Headers t with
       | Return m =>
           fst (ServeHTTP env h hd w) = Return tt
           /\ forall k, k ∈ projectedNames ->
                Header.Get final k = default "" (m !! k)
       | Panic msg =>
           fst (ServeHTTP env h hd w) = Panic msg
           /\ forall k, k ∈ projectedNames -> Header.Get final k = ""
       end.
Proof.
  intros Hk Hne Hget Hv.
  destruct (ServeHTTP_defer env h hd w) as (Hr & Hd & _ & _ & Hse & _ & Hout).
  rewrite (serve_validated env h hd w tok w1 t w2) in * by done.
  cbn [fst snd] in *.
  pose proof (cacheGet_frame tok w) as Hg. rewrite Hget in Hg. cbn in Hg.
  destruct Hg as (_ & Hg2 & _ & Hg4 & Hg5 & _).
  pose proof (validate_frame env h tok w1) as Hf. rewrite Hv in Hf. cbn in Hf.
  destruct Hf as (_ & _ & Hf3 & Hf4 & _ & Hf6 & _).
  destruct (cacheWrite_spec env h tok t w2) as (Hw1 & Hw2 & Hw3 & _).
  destruct (confirm_header (sanitized hd) t) as [Hstatus Hproj].
  exists (snd (confirm (sanitized hd) t)).
  split; [by rewrite Hd, Hw3, Hf4, Hg5|]. split; [done|].
  split; [by rewrite Hse, Hw1, Hf6, Hg2|].
  split; [by rewrite Hout, Hw2, Hf3, Hg4|].
  destruct (Headers t) as [m|msg]; destruct Hproj as [Hfst Hget'];
    (split; [by rewrite Hr|]); intros k Hin; rewrite Hget' by done.
  - destruct (m !! k); [done|]. by apply Get_sanitized_projected.
  - by apply Get_sanitized_projected.
Qed.

(** X22: a validated record whose project lacks its embedded domain is
    written to the configured cache before the projection panics: the
    handler panics and the record stays stored under the token. *)
Theorem ServeHTTP_stores_before_panic h hd w tok c w1 t w2 p :
  Header.Get hd "X-Auth-Token" = tok -> tok <> "" ->
  TokenCache w = Some c ->
  cacheGet tok w = (None, w1) ->
  validate env h tok w1 = (Ok t, w2) ->
  token_Project t = Some p -> project_Domain p = None ->
  fst (ServeHTTP env h hd w) = Panic nilDereference
  /\ exists ttl,
       stored (snd (ServeHTTP env h hd w)) = stored w ++ [(tok, t, ttl)].
Proof.
  intros Hk Hne Hc Hget Hv Hp Hd.
  destruct (ServeHTTP_defer env h hd w) as (Hr & _ & _ & _ & _ & Hst & _).
  rewrite (serve_validated env h hd w tok w1 t w2) in * by done.
  cbn [fst snd] in *.
  pose proof (cacheGet_frame tok w) as Hg. rewrite Hget in Hg. cbn in Hg.
  destruct Hg as (_ & _ & Hg3 & _ & _ & Hg6).
  pose proof (validate_frame env h tok w1) as Hf. rewrite Hv in Hf. cbn in Hf.
  destruct Hf as (Hf1 & Hf2 & _).
  destruct (cacheWrite_spec env h tok t w2) as (_ & _ & _ & Hw).
  assert (is_Some (TokenCache w2)) as [c2 Hc2].
  { rewrite Hf1. apply Hg6. rewrite Hc. eauto. }
  rewrite Hc2 in Hw. destruct Hw as [_ Hw].
  split.
  - rewrite Hr. unfold confirm, Headers. by rewrite Hp, Hd.
  - eexists. by rewrite Hst, Hw, Hf2, Hg3.
Qed.

(** X23: without a cache nothing is ever stored, and every request that
    carries a token is validated anew: one request goes to the identity
    service whenever the URL parses. *)
Theorem ServeHTTP_without_cache h hd w :
  TokenCache w = None ->
  TokenCache (snd (ServeHTTP env h hd w)) = None
  /\ stored (snd (ServeHTTP env h hd w)) = stored w
  /\ (Header.Get hd "X-Auth-Token" <> "" ->
      url_Parse env (Endpoint h +:+ "/auth/tokens?nocatalog") = None ->
      sent (snd (ServeHTTP env h hd w))
      = sent w ++ [validationRequest h (Header.Get hd "X-Auth-Token")]).
Proof.
  intros Hc.
  destruct (ServeHTTP_defer env h hd w) as (_ & _ & Hca & _ & Hse & Hst & _).
  rewrite Hca, Hse, Hst. clear Hca Hse Hst.
  destruct (decide (Header.Get hd "X-Auth-Token" = "")) as [Hk|Hne].
  { rewrite serve_no_token by done. cbn. done. }
  set (tok := Header.Get hd "X-Auth-Token") in *.
  assert (cacheGet tok w = (None, w)) as Hget
    by (unfold cacheGet; by rewrite Hc).
  destruct (validate env h tok w) as [[t|e] w2] eqn:Hv;
    pose proof (validate_frame env h tok w) as Hf; rewrite Hv in Hf;
    cbn in Hf; destruct Hf as (Hf1 & Hf2 & _);
    pose proof (validate_sent env h tok w) as Hs; rewrite Hv in Hs;
    cbn in Hs.
  - rewrite (serve_validated env h hd w tok w t w2) by done. cbn [snd].
    destruct (cacheWrite_spec env h tok t w2) as (Hw1 & _ & _ & Hw).
    rewrite Hf1, Hc in Hw. rewrite Hw in *.
    split; [by rewrite Hf1|]. split; [done|]. intros _ Hurl. by apply Hs.
  - rewrite (serve_rejected env h hd w tok w e w2) by done.
    cbn [snd Println TokenCache stored sent].
    split; [by rewrite Hf1|]. split; [done|]. intros _ Hurl. by apply Hs.
Qed.

(** X24: one run of the handler sends at most one request to the identity
    service, reads the clock at most twice, prints at most one line and
    writes the cache at most once. *)
Theorem ServeHTTP_effects_bounded h hd w :
  (length (sent (snd (ServeHTTP env h hd w))) <= S (length (sent w)))%nat
  /\ (ticks w <= ticks (snd (ServeHTTP env h hd w)) <= 2 + ticks w)%nat
  /\ (length (stdout (snd (ServeHTTP env h hd w))) <= S (length (stdout w)))%nat
  /\ (length (stored (snd (ServeHTTP env h hd w))) <= S (length (stored w)))%nat.
Proof.
  destruct (ServeHTTP_defer env h hd w) as (_ & _ & _ & Hti & Hse & Hst & Hout).
  rewrite Hti, Hse, Hst, Hout. clear Hti Hse Hst Hout.
  destruct (decide (Header.Get hd "X-Auth-Token" = "")) as [Hk|Hne].
  { rewrite serve_no_token by done. cbn. lia. }
  set (tok := Header.Get hd "X-Auth-Token") in *.
  destruct (cacheGet tok w) as [[t|] w1] eqn:Hget;
    pose proof (cacheGet_frame tok w) as Hg; rewrite Hget in Hg; cbn in Hg;
    destruct Hg as (Hg1 & Hg2 & Hg3 & Hg4 & _ & _).
  { rewrite (serve_hit env h hd w tok t w1) by done.
    cbn [snd Println sent ticks stdout stored].
    rewrite Hg1, Hg2, Hg3, Hg4, length_app. cbn. lia. }
  destruct (validate env h tok w1) as [[t|e] w2] eqn:Hv;
    pose proof (validate_frame env h tok w1) as Hf; rewrite Hv in Hf;
    cbn in Hf; destruct Hf as (_ & Hf2 & Hf3 & _ & Hf5);
    pose proof (validate_ticks env h tok w1) as Ht; rewrite Hv in Ht;
    cbn in Ht.
  - rewrite (serve_validated env h hd w tok w1 t w2) by done. cbn [snd].
    destruct Hf5 as (Hticks & Hsent & _).
    destruct (cacheWrite_spec env h tok t w2) as (Hw1 & Hw2 & _ & Hw).
    rewrite Hw1, Hw2, Hsent, Hf3, Hg2, Hg4, length_app. cbn [length].
    destruct (TokenCache w2).
    + destruct Hw as [Hwt Hws]. rewrite Hwt, Hws, Hticks, Hf2, Hg3, Hg1.
      rewrite length_app. cbn [length]. lia.
    + rewrite Hw, Hticks, Hf2, Hg3, Hg1. lia.
  - rewrite (serve_rejected env h hd w tok w1 e w2) by done.
    cbn [snd Println sent ticks stdout stored].
    rewrite Hf2, Hf3, Hg3, Hg4, length_app. cbn [length].
    destruct Hf5 as [Hs|Hs]; rewrite Hs, ?length_app, Hg2; cbn [length];
      destruct Ht as [Ht|Ht]; rewrite Ht, Hg1; lia.
Qed.

End HandlerPaths.

(** ** The handler with the map cache *)

Lemma mapCache_cacheGet (w : World (gmap string token))
    (c : gmap string token) (tok : string) :
  TokenCache w = Some c -> cacheGet tok w = (c !! tok, w).
Proof. destruct w. cbn. by intros ->. Qed.

(** X25: with the map cache, a first request whose token is not in the
    cache and validates leaves the record in the cache under the token,
    and any later request with that token on the world it left is served
    from the cache: nothing is sent, no clock is read, and it ends as the
    first did. *)
Theorem mapCache_second_request (env : Env) (h : Auth) (hd1 hd2 : Header.t)
    (w : World (gmap string token)) (c : gmap string token) (tok : string)
    (t : token) (w2 : World (gmap string token)) :
  Header.Get hd1 "X-Auth-Token" = tok -> tok <> "" ->
  Header.Get hd2 "X-Auth-Token" = tok ->
  TokenCache w = Some c -> c !! tok = None ->
  validate env h tok w = (Ok t, w2) ->
  TokenCache (snd (ServeHTTP env h hd1 w)) = Some (<[tok := t]> c)
  /\ sent (snd (ServeHTTP env h hd2 (snd (ServeHTTP env h hd1 w))))
     = sent (snd (ServeHTTP env h hd1 w))
  /\ ticks (snd (ServeHTTP env h hd2 (snd (ServeHTTP env h hd1 w))))
     = ticks (snd (ServeHTTP env h hd1 w))
  /\ fst (ServeHTTP env h hd2 (snd (ServeHTTP env h hd1 w)))
     = fst (ServeHTTP env h hd1 w).
Proof.
  intros Hk1 Hne Hk2 Hc Hmiss Hv.
  assert (cacheGet tok w = (None, w)) as Hget
    by (rewrite (mapCache_cacheGet w c) by done; by rewrite Hmiss).
  destruct (ServeHTTP_defer env h hd1 w) as (Hr1 & _ & Hca1 & _).
  rewrite (serve_validated env h hd1 w tok w t w2) in Hr1, Hca1 by done.
  cbn [fst snd] in Hr1, Hca1.
  pose proof (validate_frame env h tok w) as Hf. rewrite Hv in Hf. cbn in Hf.
  destruct Hf as (Hf1 & _).
  rewrite cacheWrite_cache, Hf1, Hc in Hca1. cbn in Hca1.
  set (wA := snd (ServeHTTP env h hd1 w)) in *.
  assert (cacheGet tok wA = (Some t, wA)) as HgetA.
  { rewrite (mapCache_cacheGet wA _ tok Hca1). by rewrite lookup_insert_eq. }
  destruct (ServeHTTP_defer env h hd2 wA) as (Hr2 & _ & _ & Hti & Hse & _).
  rewrite (serve_hit env h hd2 wA tok t wA) in Hr2, Hti, Hse by done.
  cbn [fst snd Println sent ticks] in Hr2, Hti, Hse.
  split; [done|]. split; [done|]. split; [done|].
  rewrite Hr1, Hr2. unfold confirm. by destruct (Headers t).
Qed.

Section HandlerLast.

Context {C : Type} `{!Cache C}.
Variable env : Env.
Implicit Types (w : World C) (h : Auth) (hd : Header.t) (tok : string).

(** X26: the ttl of a cache write never exceeds [CacheTime]; it is
    positive when the cache time is positive and the token has not expired
    at the clock reading of the write, and it is zero or negative when the
    token expired between its validation and that reading. *)
Theorem ServeHTTP_ttl_sign h hd w key t ttl :
  stored (snd (ServeHTTP env h hd w)) = stored w ++ [(key, t, ttl)] ->
  ttl <= CacheTime h
  /\ (0 < CacheTime h ->
      time_Now env (S (ticks w)) < token_ExpiresAt t -> 0 < ttl)
  /\ (token_ExpiresAt t <= time_Now env (S (ticks w)) -> ttl <= 0).
Proof.
  intros Hst.
  destruct (ServeHTTP_stored env h hd w) as [Hsame|(t' & _ & Hnew)].
  { rewrite Hsame in Hst. apply (f_equal length) in Hst.
    rewrite length_app in Hst. cbn in Hst. lia. }
  rewrite Hnew in Hst. apply app_inv_head in Hst.
  injection Hst as <- <- <-.
  unfold Time.Sub, Time.minDuration, Time.maxDuration.
  destruct (Z.ltb_spec (token_ExpiresAt t' - time_Now env (S (ticks w)))
              (- 2 ^ 63));
    [|destruct (Z.ltb_spec (2 ^ 63 - 1)
                  (token_ExpiresAt t' - time_Now env (S (ticks w))))];
    lia.
Qed.

(** X27: what the caller plants under the filtered names has no influence:
    two requests that agree on every other header are served alike, with
    the same result, the same effects and the same header for the next
    handler. *)
Theorem ServeHTTP_ignores_planted_headers h hd1 hd2 w :
  (forall k, k ∉ filteredNames -> hd1 !! k = hd2 !! k) ->
  ServeHTTP env h hd1 w = ServeHTTP env h hd2 w.
Proof.
  intros Hagree.
  assert (sanitized hd1 = sanitized hd2) as Hs.
  { unfold sanitized. f_equal. apply map_eq. intros k.
    rewrite !lookup_filterIncomingHeaders. case_decide; [done|].
    by apply Hagree. }
  unfold ServeHTTP, serve. by rewrite Hs.
Qed.

End HandlerLast.

(** ** The added theorems on the example requests *)

Lemma validate_sends_one_request_witness :
  exists req,
    sent (snd (validate Examples.answers401 Examples.auth "1234"
                 Examples.noCache)) = [req]
    /\ Header.Get (Request_Header req) "X-Subject-Token" = "1234".
Proof.
  destruct (validate_sends_one_request Examples.answers401 Examples.auth
              "1234" Examples.noCache eq_refl)
    as (req & Hs & _ & _ & _ & Hsub & _).
  exists req. split; [exact Hs | exact Hsub].
Defined.

Lemma validate_bad_url_witness :
  validate Examples.badEndpoint Examples.auth "1234" Examples.noCache
  = (Err "parse error", Examples.noCache).
Proof.
  exact (validate_bad_url Examples.badEndpoint Examples.auth "1234"
           Examples.noCache "parse error" eq_refl).
Defined.

Lemma validate_status_400_witness :
  fst (validate Examples.answers401 Examples.auth "1234" Examples.noCache)
  = Err "401 Unauthorized".
Proof.
  refine (proj1 (validate_status_400 Examples.answers401 Examples.auth "1234"
                   Examples.noCache _ eq_refl eq_refl _)).
  cbn. lia.
Defined.

Lemma validate_error_object_witness :
  fst (validate Examples.answersError Examples.auth "1234" Examples.noCache)
  = Err "200 OK : token revoked".
Proof.
  refine (proj1 (validate_error_object Examples.answersError Examples.auth
                   "1234" Examples.noCache _ _ _ eq_refl eq_refl _ eq_refl
                   eq_refl)).
  cbn. lia.
Defined.

Lemma ServeHTTP_no_token_witness :
  fst (ServeHTTP Examples.answers401 Examples.auth Examples.spoofed
         Examples.noCache) = Return tt
  /\ sent (snd (ServeHTTP Examples.answers401 Examples.auth Examples.spoofed
                  Examples.noCache)) = [].
Proof.
  assert (Header.Get Examples.spoofed "X-Auth-Token" = "") as Hk
    by (vm_compute; reflexivity).
  destruct (ServeHTTP_no_token Examples.answers401 Examples.auth
              Examples.spoofed Examples.noCache Hk)
    as (Hr & _ & _ & _ & _ & _ & Hs & _).
  split; [exact Hr | exact Hs].
Defined.

Lemma ServeHTTP_keeps_other_headers_witness :
  exists final,
    delegated (snd (ServeHTTP Examples.answersProject Examples.auth
                      Examples.withToken Examples.noCache)) = [final]
    /\ final !! "X-Auth-Token" = Examples.withToken !! "X-Auth-Token".
Proof.
  apply (ServeHTTP_keeps_other_headers Examples.answersProject Examples.auth
           Examples.withToken Examples.noCache "X-Auth-Token").
  compute_done.
Defined.

Lemma ServeHTTP_unprojected_names_empty_witness :
  exists final,
    delegated (snd (ServeHTTP Examples.answersProject Examples.auth
                      Examples.withToken Examples.noCache)) = [final]
    /\ Header.Get final "X-Service-Roles" = "".
Proof.
  apply (ServeHTTP_unprojected_names_empty Examples.answersProject
           Examples.auth Examples.withToken Examples.noCache
           "X-Service-Roles"); [compute_done | compute_done | discriminate].
Defined.

Lemma ServeHTTP_panic_witness :
  exists final,
    delegated (snd (ServeHTTP Examples.answersBare Examples.auth
                      Examples.withToken Examples.noCache)) = [final]
    /\ Header.Get final "X-Identity-Status" = "Confirmed".
Proof.
  assert (fst (ServeHTTP Examples.answersBare Examples.auth Examples.withToken
                 Examples.noCache) = Panic nilDereference) as Hp
    by (vm_compute; reflexivity).
  destruct (ServeHTTP_panic Examples.answersBare Examples.auth
              Examples.withToken Examples.noCache nilDereference Hp)
    as (_ & final & Hd & Hs & _).
  exists final. split; [exact Hd | exact Hs].
Defined.

Lemma ServeHTTP_validated_witness :
  exists final,
    delegated (snd (ServeHTTP Examples.answersProject Examples.auth
                      Examples.planted Examples.noCache)) = [final]
    /\ Header.Get final "X-Identity-Status" = "Confirmed"
    /\ Header.Get final "X-Project-Id" = "p-d61611de1".
Proof.
  assert (Header.Get Examples.planted "X-Auth-Token" = "1234") as Hk
    by (vm_compute; reflexivity).
  assert (validate Examples.answersProject Examples.auth "1234"
            Examples.noCache
          = (Ok Examples.projectScoped,
             snd (validate Examples.answersProject Examples.auth "1234"
                    Examples.noCache))) as Hv
    by (vm_compute; reflexivity).
  destruct (ServeHTTP_validated Examples.answersProject Examples.auth
              Examples.planted Examples.noCache "1234" Examples.noCache
              Examples.projectScoped _ Hk ltac:(discriminate) eq_refl Hv)
    as (final & Hd & Hs & _ & _ & Hm).
  exists final. split; [exact Hd|]. split; [exact Hs|].
  destruct Hm as [_ Hm].
  apply (Hm "X-Project-Id"). compute_done.
Defined.

Lemma ServeHTTP_stores_before_panic_witness :
  fst (ServeHTTP Examples.answersBare Examples.auth Examples.withToken
         Examples.freshCache) = Panic nilDereference
  /\ exists ttl,
       stored (snd (ServeHTTP Examples.answersBare Examples.auth
                      Examples.withToken Examples.freshCache))
       = [("1234", Examples.bareToken, ttl)].
Proof.
  assert (validate Examples.answersBare Examples.auth "1234"
            Examples.freshCache
          = (Ok Examples.bareToken,
             snd (validate Examples.answersBare Examples.auth "1234"
                    Examples.freshCache))) as Hv
    by (vm_compute; reflexivity).
  exact (ServeHTTP_stores_before_panic Examples.answersBare Examples.auth
           Examples.withToken Examples.freshCache "1234" ∅ Examples.freshCache
           Examples.bareToken _ Examples.bareProject
           eq_refl ltac:(discriminate) eq_refl eq_refl Hv eq_refl eq_refl).
Defined.

Lemma ServeHTTP_without_cache_witness :
  stored (snd (ServeHTTP Examples.answersProject Examples.auth
                 Examples.withToken Examples.noCache)) = [].
Proof.
  exact (proj1 (proj2 (ServeHTTP_without_cache Examples.answersProject
                         Examples.auth Examples.withToken Examples.noCache
                         eq_refl))).
Defined.

Lemma mapCache_second_request_witness :
  sent (snd (ServeHTTP Examples.answersProject Examples.auth Examples.planted
               (snd (ServeHTTP Examples.answersProject Examples.auth
                       Examples.withToken Examples.freshCache))))
  = sent (snd (ServeHTTP Examples.answersProject Examples.auth
                 Examples.withToken Examples.freshCache)).
Proof.
  assert (Header.Get Examples.planted "X-Auth-Token" = "1234") as Hk
    by (vm_compute; reflexivity).
  assert (validate Examples.answersProject Examples.auth "1234"
            Examples.freshCache
          = (Ok Examples.projectScoped,
             snd (validate Examples.answersProject Examples.auth "1234"
                    Examples.freshCache))) as Hv
    by (vm_compute; reflexivity).
  exact (proj1 (proj2 (mapCache_second_request Examples.answersProject
                         Examples.auth Examples.withToken Examples.planted
                         Examples.freshCache ∅ "1234" Examples.projectScoped _
                         eq_refl ltac:(discriminate) Hk eq_refl eq_refl Hv))).
Defined.

Lemma ServeHTTP_ttl_sign_witness :
  300000000000 <= CacheTime Examples.auth.
Proof.
  assert (stored (snd (ServeHTTP Examples.answersProject Examples.auth
                         Examples.withToken Examples.freshCache))
          = stored Examples.freshCache
              ++ [("1234", Examples.projectScoped, 300000000000)]) as Hst
    by (vm_compute; reflexivity).
  exact (proj1 (ServeHTTP_ttl_sign Examples.answersProject Examples.auth
                  Examples.withToken Examples.freshCache "1234"
                  Examples.projectScoped 300000000000 Hst)).
Defined.

Lemma ServeHTTP_ignores_planted_headers_witness :
  ServeHTTP Examples.answersProject Examples.auth Examples.planted
    Examples.noCache
  = ServeHTTP Examples.answersProject Examples.auth Examples.withToken
      Examples.noCache.
Proof.
  apply (ServeHTTP_ignores_planted_headers Examples.answersProject
           Examples.auth Examples.planted Examples.withToken Examples.noCache).
  intros k Hk. unfold Examples.planted. apply lookup_insert_ne.
  intros <-. apply Hk. compute_done.
Defined.
